(** * The local settings store of the GNS3 GUI ([gns3/local_config.py])

    A shallow embedding of [LocalConfig]: the settings document is a JSON
    object held in memory, read from and written to a file, migrated from
    the pre-1.4 layout and accessed section by section.

    Python dictionaries are finite maps with string keys ([gmap string]),
    Python exceptions are results of type [outcome], and the methods of the
    object thread its fields through a state-and-exception monad [M].
    What the file system answers to a read or to a write is an argument of
    the operation; what reaches the disk is recorded in a journal. *)

From Stdlib Require Import ZArith NArith String Ascii Lia.
From stdpp Require Import base option list strings gmap.

Local Open Scope string_scope.

(** * JSON values

    The values [json.load] produces.  Numbers are the integers: floating
    point numbers are left out of the model. *)

#[warnings="-register-all"] Inductive value :=
  | VNull
  | VBool (b : bool)
  | VInt (n : Z)
  | VStr (s : string)
  | VList (l : list value)
  | VDict (d : gmap string value).

Abbreviation dict := (gmap string value).

Definition is_dict (v : value) : bool :=
  match v with VDict _ => true | _ => false end.

(** Boolean universal quantification over the entries of a map. *)
Definition map_forallb {A} (f : string -> A -> bool) (m : gmap string A) : bool :=
  map_fold (fun k x acc => acc && f k x) true m.

Fixpoint value_size (v : value) : nat :=
  match v with
  | VList l => S (foldr (fun x n => value_size x + n) 0 l)
  | VDict d => S (map_fold (fun _ x n => value_size x + n) 0 d)
  | _ => 1
  end.

(** Python's [==] on JSON values: [True == 1], lists compare element by
    element, dictionaries compare by keys and values whatever the order of
    insertion. *)
Fixpoint py_eq (a b : value) {struct a} : bool :=
  match a, b with
  | VNull, VNull => true
  | VBool x, VBool y => Bool.eqb x y
  | VBool x, VInt n => Z.eqb (Z.b2z x) n
  | VInt n, VBool x => Z.eqb n (Z.b2z x)
  | VInt m, VInt n => Z.eqb m n
  | VStr s, VStr t => String.eqb s t
  | VList l, VList l' =>
      (fix go (l l' : list value) : bool :=
         match l, l' with
         | [], [] => true
         | x :: l, y :: l' => py_eq x y && go l l'
         | _, _ => false
         end) l l'
  | VDict d, VDict d' =>
      Nat.eqb (size d) (size d')
      && map_forallb (fun k x =>
           match d' !! k with Some y => py_eq x y | None => false end) d
  | _, _ => false
  end.

(** * Exceptions *)

Inductive exn := TypeError | ValueError | AttributeError | KeyError | OSError.

Inductive outcome (A : Type) :=
  | Ret (a : A)
  | Raise (e : exn).
Arguments Ret {A} a.
Arguments Raise {A} e.

#[global] Instance outcome_ret : MRet outcome := fun A a => Ret a.
#[global] Instance outcome_bind : MBind outcome := fun A B k m =>
  match m with Ret a => k a | Raise e => Raise e end.

Definition returns {A} (o : outcome A) : Prop := exists a, o = Ret a.

(** * The operations of Python the store applies to JSON values *)

Fixpoint is_prefix (p s : string) : bool :=
  match p, s with
  | EmptyString, _ => true
  | String a p', String b s' => Ascii.eqb a b && is_prefix p' s'
  | String _ _, EmptyString => false
  end.

Fixpoint is_substring (p s : string) : bool :=
  is_prefix p s
  || match s with EmptyString => false | String _ s' => is_substring p s' end.

(** [name not in c]: key membership for a dictionary, element membership
    for a list, substring test for a string; the other values are not
    containers. *)
Definition py_not_in (name : string) (c : value) : outcome bool :=
  match c with
  | VDict d => Ret (negb (bool_decide (is_Some (d !! name))))
  | VList l => Ret (negb (existsb (py_eq (VStr name)) l))
  | VStr s => Ret (negb (is_substring name s))
  | VNull | VBool _ | VInt _ => Raise TypeError
  end.

(** [c[name] = v] with a string for [name]. *)
Definition py_setitem (c : value) (name : string) (v : value) : outcome value :=
  match c with
  | VDict d => Ret (VDict (<[name := v]> d))
  | _ => Raise TypeError
  end.

(** [c[name]] with a string for [name]. *)
Definition py_getitem (c : value) (name : string) : outcome value :=
  match c with
  | VDict d =>
      match d !! name with Some v => Ret v | None => Raise KeyError end
  | _ => Raise TypeError
  end.

(** [c.get(name, dflt)]. *)
Definition py_get (c : value) (name : string) (dflt : value) : outcome value :=
  match c with
  | VDict d => Ret (default dflt (d !! name))
  | _ => Raise AttributeError
  end.

(** [c.update(other)] with a dictionary for [other]. *)
Definition py_update (c : value) (other : dict) : outcome value :=
  match c with
  | VDict d => Ret (VDict (other ∪ d))
  | _ => Raise AttributeError
  end.

(** * Dotted-numeric versions *)

Module Dotted.

(** The dot-separated components of a string, the component being read
    in [cur]. *)
Fixpoint split_dots (cur : string) (s : string) : list string :=
  match s with
  | EmptyString => [cur]
  | String c s' =>
      if Ascii.eqb c "."%char then cur :: split_dots EmptyString s'
      else split_dots (cur ++ String c EmptyString) s'
  end.

Definition digit (c : ascii) : option N :=
  let n := N_of_ascii c in
  if ((48 <=? n) && (n <=? 57))%N then Some (n - 48)%N else None.

(** The number a non-empty string of decimal digits denotes. *)
Fixpoint numeral (acc : N) (s : string) : option N :=
  match s with
  | EmptyString => Some acc
  | String c s' =>
      match digit c with
      | Some d => numeral (10 * acc + d)%N s'
      | None => None
      end
  end.

Definition component (s : string) : option N :=
  match s with EmptyString => None | _ => numeral 0%N s end.

Definition version := option (list N).

(** Modelled from the spec: [pkg_resources.parse_version], which the
    store imports and which is not part of the sources.  The spec says of
    it that versions are ordered dotted-numerically and not lexically: a
    version is the list of the numbers between its dots.  A string that
    is not of this form has no version here. *)
Definition parse_version (s : string) : version :=
  mapM component (split_dots EmptyString s).

(** Numbers are compared from the left; a missing component counts as 0,
    as in [1.4 = 1.4.0]. *)
Fixpoint compare_release (a b : list N) {struct a} : comparison :=
  match a, b with
  | [], _ => if forallb (N.eqb 0) b then Eq else Lt
  | _ :: _, [] => if forallb (N.eqb 0) a then Eq else Gt
  | x :: a', y :: b' =>
      match (x ?= y)%N with
      | Eq => compare_release a' b'
      | c => c
      end
  end.

(** Modelled from the spec: the [<] of the objects [parse_version]
    returns; strings without a version are not below anything. *)
Definition version_lt (a b : version) : bool :=
  match a, b with
  | Some x, Some y =>
      match compare_release x y with Lt => true | _ => false end
  | _, _ => false
  end.

(** The lexical order of strings, for comparison. *)
Fixpoint string_ltb (s t : string) : bool :=
  match s, t with
  | _, EmptyString => false
  | EmptyString, String _ _ => true
  | String a s', String b t' =>
      match (N_of_ascii a ?= N_of_ascii b)%N with
      | Lt => true
      | Gt => false
      | Eq => string_ltb s' t'
      end
  end.

End Dotted.

(** * The store *)

(** What [json.load] returns for the file [_readConfig] opens: an object, a
    string, or null, a boolean or a number.  A file that holds a JSON array
    is not in the model. *)
Inductive scalar := SNull | SBool (b : bool) | SInt (n : Z).

Inductive json :=
  | JObject (config : dict)       (* a JSON object *)
  | JScalar (x : scalar)          (* null, true, false or a number *)
  | JString (s : string).         (* a JSON string *)

Inductive file :=
  | Unreadable                    (* [open] raises OSError *)
  | Garbled (mtime : Z)           (* [json.load] raises ValueError *)
  | Parsed (mtime : Z) (config : json).

(** What the file system answers when [_writeConfig] replaces the file. *)
Inductive write_io :=
  | WriteOk (mtime : Z)           (* the file is replaced; its new mtime *)
  | WriteFails.                   (* OSError or ValueError on the way *)

(** What [_writeConfig] did to the disk.  The journal of the object holds
    the writes of [_writeConfig] and no other: the file [__init__] creates
    and the directory [_migrateOldConfigPath] copies are not in it. *)
Inductive event :=
  | Saved (doc : dict) (mtime : Z)
  | SaveFailed (doc : dict).

Record LocalConfig := mkLocalConfig {
  _settings : dict;
  _last_config_changed : option Z;   (* [None]: the attribute is not set *)
  journal : list event;              (* most recent first *)
}.

Definition with_settings (self : LocalConfig) (d : dict) : LocalConfig :=
  mkLocalConfig d (_last_config_changed self) (journal self).

Definition with_mtime (self : LocalConfig) (t : Z) : LocalConfig :=
  mkLocalConfig (_settings self) (Some t) (journal self).

(** Methods: the object before, the result or the exception, the object
    after. *)
Definition M (A : Type) : Type := LocalConfig -> outcome A * LocalConfig.

#[global] Instance M_ret : MRet M := fun A a self => (Ret a, self).
#[global] Instance M_bind : MBind M := fun A B k m self =>
  match m self with
  | (Ret a, self') => k a self'
  | (Raise e, self') => (Raise e, self')
  end.

Definition raise {A} (e : exn) : M A := fun self => (Raise e, self).

(** A pure computation inside a method. *)
Definition lift {A} (o : outcome A) : M A := fun self => (o, self).

(** The document after a method has run. *)
Definition document {A} (r : outcome A * LocalConfig) : dict := _settings r.2.

(** [for k in d.keys(): body k]. *)
Definition for_keys {A} (d : gmap string A) (body : string -> M unit) : M unit :=
  map_fold (fun k _ (acc : M unit) => acc ≫= fun _ => body k) (mret tt) d.

(** [local_dict.update(config)] for what [json.load] returned.  The keys
    and values of a dictionary are merged; a string is read as a sequence
    of pairs, which no character is; the other values cannot be iterated
    over. *)
Definition dict_update (d : dict) (config : json) : outcome unit * dict :=
  match config with
  | JObject o => (Ret tt, o ∪ d)
  | JString s =>
      match s with
      | EmptyString => (Ret tt, d)
      | String _ _ => (Raise ValueError, d)
      end
  | JScalar _ => (Raise TypeError, d)
  end.

Definition get_settings : M dict := fun self => (Ret (_settings self), self).

Definition put_settings (d : dict) : M unit := fun self =>
  (Ret tt, with_settings self d).

(** [self._settings[k] = v]. *)
Definition set_item (k : string) (v : value) : M unit :=
  d ← get_settings; put_settings (<[k := v]> d).

Definition set_mtime (t : Z) : M unit := fun self => (Ret tt, with_mtime self t).

(** [try: body except (ValueError, OSError): log.error(...)]. *)
Definition io_error (e : exn) : bool :=
  match e with ValueError | OSError => true | _ => false end.

Definition try_io (body : M unit) : M unit := fun self =>
  match body self with
  | (Raise e, self') =>
      if io_error e then (Ret tt, self') else (Raise e, self')
  | r => r
  end.

(** The function nested in [loadSectionSettings]: the entries of [default]
    that [local] misses are added to it, and the entries both have are
    filled in turn when the default is a dictionary.  The loop visits the
    entries in the order of the map; the order of insertion, which Python
    follows, is not kept by the model: the steps for different names do not
    interfere, and TypeError is all the loop raises
    ([_copySettings_raises]). *)
Fixpoint _copySettings (local default : value) {struct default} : outcome value :=
  match default with
  | VDict items =>
      map_fold (fun name dv (acc : outcome value) =>
        local ← acc;
        missing ← py_not_in name local;
        if (missing : bool) then py_setitem local name dv
        else if is_dict dv then
          sub ← py_getitem local name;
          filled ← _copySettings sub dv;
          py_setitem local name filled
        else Ret local) (Ret local) items
  | _ => Raise AttributeError          (* no [items] *)
  end.

Definition loadSectionSettings (section : string) (default_settings : value)
  : M value :=
  current ← get_settings;
  let settings := default (VDict ∅) (current !! section) in
  settings ← lift (_copySettings settings default_settings);
  set_item section settings ;;
  mret settings.

(** The body of the loop of [_readConfig] over the keys of the document:
    a top-level dictionary is loaded with itself for the defaults. *)
Definition update_loaded_section (section : string) : M unit :=
  current ← get_settings;
  match current !! section with
  | Some v =>
      if is_dict v then loadSectionSettings section v ;; mret tt
      else mret tt
  | None => raise KeyError
  end.

Definition _readConfig (f : file) : M dict :=
  try_io
    (match f with
     | Unreadable => raise OSError
     | Garbled mtime => set_mtime mtime ;; raise ValueError
     | Parsed mtime config =>
         set_mtime mtime ;;
         d ← get_settings;
         let '(r, d) := dict_update d config in
         put_settings d ;; lift r
     end) ;;
  (* Update already loaded section *)
  current ← get_settings;
  for_keys current update_loaded_section ;;
  mret ∅.

Definition old_server_path : string :=
  "/Applications/GNS3.app/Contents/Resources/server/Contents/MacOS/gns3server".

Definition new_server_path : string :=
  "/Applications/GNS3.app/Contents/MacOS/gns3server".

(** [servers[k] = v] in [_migrateOldConfig], where [servers] is the object
    the document holds under [Servers] when it has one ([stored]) and a new
    dictionary otherwise: the document sees the assignment in the first
    case only. *)
Definition servers_setitem (stored : bool) (servers : value) (k : string)
    (v : value) : M value :=
  servers ← lift (py_setitem servers k v);
  (if stored then set_item "Servers" servers else mret tt) ;;
  mret servers.

(** The first block of [_migrateOldConfig]: [LocalServer] and
    [RemoteServers] are copied into [Servers]. *)
Definition migrate_servers : M unit :=
  settings ← get_settings;
  let stored := bool_decide (is_Some (settings !! "Servers")) in
  let servers := default (VDict ∅) (settings !! "Servers") in
  servers ←
    match settings !! "LocalServer" with
    | Some local_server =>
        servers ← servers_setitem stored servers "local_server" local_server;
        (* We migrate the server binary for OSX *)
        path ← lift (py_getitem local_server "path");
        if py_eq path (VStr old_server_path) then
          local_server ←
            lift (py_setitem local_server "path" (VStr new_server_path));
          servers_setitem stored servers "local_server" local_server
        else mret servers
    | None => mret servers
    end;
  settings ← get_settings;
  servers ←
    match settings !! "RemoteServers" with
    | Some remote_servers =>
        servers_setitem stored servers "remote_servers" remote_servers
    | None => mret servers
    end;
  set_item "Servers" servers.

(** The second block: the flag of [GUI] is copied into [MainWindow]. *)
Definition migrate_main_window : M unit :=
  settings ← get_settings;
  match settings !! "GUI" with
  | Some gui =>
      let main_window := default (VDict ∅) (settings !! "MainWindow") in
      flag ← lift (py_get gui "hide_getting_started_dialog" (VBool false));
      main_window ←
        lift (py_setitem main_window "hide_getting_started_dialog" flag);
      set_item "MainWindow" main_window
  | None => mret tt
  end.

(** [json.dump] into a temporary file, [shutil.move] onto the configuration
    file and [os.stat], inside [try ... except (ValueError, OSError)]. *)
Definition replace_file (io : write_io) : M unit := fun self =>
  let doc := _settings self in
  match io with
  | WriteOk mtime =>
      (Ret tt, mkLocalConfig doc (Some mtime) (Saved doc mtime :: journal self))
  | WriteFails =>
      (Ret tt,
       mkLocalConfig doc (_last_config_changed self)
         (SaveFailed doc :: journal self))
  end.

Section Store.

(** [gns3.version.__version__], the version of the running application. *)
Variable __version__ : string.

(** [pkg_resources.parse_version] and the order of what it returns. *)
Context {Version : Type}.
Variable parse_version : string -> Version.
Variable version_lt : Version -> Version -> bool.

Definition _writeConfig (io : write_io) : M unit :=
  set_item "version" (VStr __version__) ;;
  replace_file io.

(** The condition of [_migrateOldConfig]. *)
Definition predates_cutoff (settings : dict) : outcome bool :=
  match settings !! "version" with
  | None => Ret true
  | Some (VStr v) => Ret (version_lt (parse_version v) (parse_version "1.4.0"))
  | Some _ => Raise TypeError       (* [parse_version] wants a string *)
  end.

Definition _migrateOldConfig : M unit :=
  settings ← get_settings;
  old ← lift (predates_cutoff settings);
  if (old : bool) then
    migrate_servers ;;
    migrate_main_window
  else mret tt.

Definition settings : M dict := get_settings.

Definition setSettings (io : write_io) (settings : dict) : M unit :=
  current ← get_settings;
  if negb (py_eq (VDict current) (VDict settings)) then
    put_settings (settings ∪ current) ;;
    _writeConfig io
  else mret tt.

Definition saveSectionSettings (io : write_io) (section : string)
    (settings : dict) : M unit :=
  current ← get_settings;
  (if bool_decide (is_Some (current !! section)) then mret tt
   else set_item section (VDict ∅)) ;;
  current ← get_settings;
  match current !! section with
  | Some content =>
      if negb (py_eq content (VDict settings)) then
        content ← lift (py_update content settings);
        set_item section content ;;
        _writeConfig io
      else mret tt
  | None => raise KeyError
  end.

End Store.

(** * What the claims speak of *)

#[global] Arguments _copySettings : simpl never.

(** The body of the loop of [_copySettings]. *)
Definition copy_step (name : string) (dv : value) (acc : outcome value)
  : outcome value :=
  local ← acc;
  missing ← py_not_in name local;
  if (missing : bool) then py_setitem local name dv
  else if is_dict dv then
    sub ← py_getitem local name;
    filled ← _copySettings sub dv;
    py_setitem local name filled
  else Ret local.

(** The shape [_copySettings] relies on: wherever the default holds a
    dictionary, the local value misses the key or holds a dictionary too,
    and so on inside. *)
Fixpoint shape_ok (local default : value) {struct default} : bool :=
  match default with
  | VDict dm =>
      match local with
      | VDict lm =>
          map_forallb (fun k dv =>
            if is_dict dv then
              match lm !! k with
              | Some lv => shape_ok lv dv
              | None => true
              end
            else true) dm
      | _ => false
      end
  | _ => true
  end.

(** The value found by following the keys of [path] through nested
    dictionaries. *)
Fixpoint at_path (path : list string) (v : value) : option value :=
  match path with
  | [] => Some v
  | k :: path' =>
      match v with
      | VDict d => d !! k ≫= at_path path'
      | _ => None
      end
  end.

(** The section [loadSectionSettings] starts from. *)
Definition persisted (self : LocalConfig) (section : string) : value :=
  default (VDict ∅) (_settings self !! section).

(** [r] has every key of [d], at every depth. *)
Definition covers (r d : value) : Prop :=
  forall path, path <> [] ->
    is_Some (at_path path d) -> is_Some (at_path path r).

(** [r] keeps what [s] holds: wherever [s] has a value, [r] has that value,
    or, where the default [d] has a dictionary, that value filled from it by
    [_copySettings]. *)
Definition keeps (s d r : value) : Prop :=
  forall path sv, at_path path s = Some sv ->
    exists rv, at_path path r = Some rv /\
      match at_path path d with
      | Some (VDict dd) => _copySettings sv (VDict dd) = Ret rv
      | _ => rv = sv
      end.

(** The values that are no containers: [in] raises on them. *)
Definition is_scalar (v : value) : bool :=
  match v with VNull | VBool _ | VInt _ => true | _ => false end.

(** One level of the result: a key the default misses is left as it is, a
    key the local value misses takes the default, and a key both have keeps
    the local value, filled in turn when the default is a dictionary. *)
Definition filled_level (lm dm rm : dict) : Prop :=
  forall k,
    match dm !! k with
    | None => rm !! k = lm !! k
    | Some dv =>
        match lm !! k with
        | None => rm !! k = Some dv
        | Some lv =>
            if is_dict dv
            then exists rv, _copySettings lv dv = Ret rv /\ rm !! k = Some rv
                            /\ is_dict rv = true
            else rm !! k = Some lv
        end
    end.

(** The first block of [_migrateOldConfig] reads three entries of the
    document and writes one: the outcome and the entry [Servers] after it,
    from the entries [Servers], [LocalServer] and [RemoteServers] before
    it. *)
Definition servers_block (sv ls rs : option value)
  : outcome unit * option value :=
  let shown (servers : value) := sv ≫= fun _ => Some servers in
  let servers := default (VDict ∅) sv in
  let copied : outcome value * option value :=
    match ls with
    | Some local_server =>
        match py_setitem servers "local_server" local_server with
        | Ret servers =>
            match py_getitem local_server "path" with
            | Ret path =>
                if py_eq path (VStr old_server_path) then
                  match py_setitem local_server "path" (VStr new_server_path)
                  with
                  | Ret local_server =>
                      match py_setitem servers "local_server" local_server with
                      | Ret servers => (Ret servers, shown servers)
                      | Raise e => (Raise e, shown servers)
                      end
                  | Raise e => (Raise e, shown servers)
                  end
                else (Ret servers, shown servers)
            | Raise e => (Raise e, shown servers)
            end
        | Raise e => (Raise e, sv)
        end
    | None => (Ret servers, sv)
    end in
  match copied with
  | (Ret servers, sv') =>
      match rs with
      | Some remote_servers =>
          match py_setitem servers "remote_servers" remote_servers with
          | Ret servers => (Ret tt, Some servers)
          | Raise e => (Raise e, sv')
          end
      | None => (Ret tt, Some servers)
      end
  | (Raise e, sv') => (Raise e, sv')
  end.

(** The same for the second block: the entry [MainWindow] after it, from
    the entries [GUI] and [MainWindow] before it. *)
Definition main_window_block (gui mw : option value)
  : outcome unit * option value :=
  match gui with
  | Some gui =>
      match py_get gui "hide_getting_started_dialog" (VBool false) with
      | Ret flag =>
          match py_setitem (default (VDict ∅) mw)
                  "hide_getting_started_dialog" flag with
          | Ret main_window => (Ret tt, Some main_window)
          | Raise e => (Raise e, mw)
          end
      | Raise e => (Raise e, mw)
      end
  | None => (Ret tt, mw)
  end.

(** The document with the entry under [k] replaced, or left as it is. *)
Definition with_entry (k : string) (entry : option value) (d : dict) : dict :=
  match entry with Some v => <[k := v]> d | None => d end.

Definition absent_or_dict (entry : option value) : bool :=
  match entry with Some v => is_dict v | None => true end.

Section Blocks.

Context {Version : Type}.
Variable parse_version : string -> Version.
Variable version_lt : Version -> Version -> bool.

(** The migration in terms of its two blocks. *)
Definition migrated (d : dict) : outcome unit * dict :=
  match predates_cutoff parse_version version_lt d with
  | Ret true =>
      let '(o1, sv') :=
        servers_block (d !! "Servers") (d !! "LocalServer")
          (d !! "RemoteServers") in
      let d1 := with_entry "Servers" sv' d in
      match o1 with
      | Ret _ =>
          let '(o2, mw') :=
            main_window_block (d !! "GUI") (d !! "MainWindow") in
          (o2, with_entry "MainWindow" mw' d1)
      | Raise e => (Raise e, d1)
      end
  | Ret false => (Ret tt, d)
  | Raise e => (Raise e, d)
  end.

End Blocks.

(** The migration with the dotted-numeric versions of the spec. *)
Definition dotted_migrate : M unit :=
  _migrateOldConfig Dotted.parse_version Dotted.version_lt.

(** The document an event put, or tried to put, on the disk. *)
Definition event_doc (ev : event) : dict :=
  match ev with Saved doc _ | SaveFailed doc => doc end.

(** The event of a write of [doc] that the file system answers with [io]. *)
Definition write_event (io : write_io) (doc : dict) : event :=
  match io with WriteOk mtime => Saved doc mtime | WriteFails => SaveFailed doc end.

(** * The rest of the store *)

(** What a reader finds where [_writeConfig] has put [doc]: [json.load]
    gives back what [json.dump] was given, for the values of the model. *)
Definition saved_file (doc : dict) (mtime : Z) : file :=
  Parsed mtime (JObject doc).

(** The signal of the class. *)
Inductive signal := config_changed_signal.

(** [_checkConfigChanged], the slot of the timer: [stat] is what [os.stat]
    answers for the configuration file ([None]: OSError) and [f] what
    [_readConfig] finds there.  The result comes with the signals emitted. *)
Definition _checkConfigChanged (stat : option Z) (f : file) (self : LocalConfig)
  : outcome unit * LocalConfig * list signal :=
  match _last_config_changed self with
  | None => (Raise AttributeError, self, [])      (* the attribute is not set *)
  | Some last =>
      match stat with
      | None => (Raise OSError, self, [])
      | Some mtime =>
          if (last <? mtime)%Z then
            match _readConfig f self with
            | (Ret _, self') => (Ret tt, self', [config_changed_signal])
            | (Raise e, self') => (Raise e, self', [])
            end
          else (Ret tt, self, [])
      end
  end.

(** [setConfigFilePath]: the file at the new path is read into the
    document. *)
Definition setConfigFilePath (f : file) : M unit :=
  _readConfig f ;; mret tt.

(** What the creation of the configuration file by [__init__] ends in. *)
Inductive create_io :=
  | Created (mtime : Z)           (* the file holds the initial document *)
  | Truncated (mtime : Z)         (* OSError while writing: a partial file *)
  | NotCreated.                   (* OSError before the file exists *)

(** What [__init__] finds on the disk: the system wide file, the file in
    the current directory and the file of the user ([None]: the path does
    not exist), and what the file system answers to the creation of the
    file of the user and to the final write. *)
Record startup := mkStartup {
  system_wide : option file;
  in_cwd : option file;
  of_user : option file;
  creation : create_io;
  final_write : write_io;
}.

Section Startup.

Variable __version__ : string.
Context {Version : Type}.
Variable parse_version : string -> Version.
Variable version_lt : Version -> Version -> bool.

(** The document [__init__] puts into a configuration file it creates. *)
Definition initial_document : dict :=
  {[ "version" := VStr __version__; "type" := VStr "settings" ]}.

(** The file at [self._config_file] when [__init__] reads it.  The
    creation of a missing file is a write of [__init__] to the disk; it
    shows here in the file that is read afterwards, not in the journal. *)
Definition config_file (env : startup) : file :=
  match in_cwd env with
  | Some f => f                   (* the file in the current directory *)
  | None =>
      match of_user env with
      | Some f => f
      | None =>
          (* create the config file if it doesn't exist *)
          match creation env with
          | Created mtime => saved_file initial_document mtime
          | Truncated mtime => Garbled mtime
          | NotCreated => Unreadable
          end
      end
  end.

(** The object when the files have been read. *)
Definition after_reads (env : startup) : outcome unit * LocalConfig :=
  match
    match system_wide env with
    | Some f => _readConfig f (mkLocalConfig ∅ None [])
    | None => (Ret ∅, mkLocalConfig ∅ None [])
    end
  with
  | (Ret _, self) =>
      match _readConfig (config_file env) self with
      | (Ret _, self') => (Ret tt, self')
      | (Raise e, self') => (Raise e, self')
      end
  | (Raise e, self) => (Raise e, self)
  end.

(** [LocalConfig.__init__], up to the start of the timer thread.
    [_migrateOldConfigPath], which comes first and copies the directory of
    an older installation, touches the disk only: what it leaves there is
    part of what [env] describes. *)
Definition __init__ (env : startup) : outcome unit * LocalConfig :=
  ((* First load system wide settings *)
   match system_wide env with
   | Some f => _readConfig f ;; mret tt
   | None => mret tt
   end ;;
   user_settings ← _readConfig (config_file env);
   (* overwrite system wide settings with user specific ones *)
   current ← get_settings;
   put_settings (user_settings ∪ current) ;;
   _migrateOldConfig parse_version version_lt ;;
   _writeConfig __version__ (final_write env))
  (mkLocalConfig ∅ None []).

End Startup.

(** * Properties *)

(** ** Induction on JSON values *)

Lemma value_size_dict d :
  value_size (VDict d) = S (map_fold (fun _ x n => value_size x + n) 0 d).
Proof. reflexivity. Qed.

Lemma value_size_member d k v :
  d !! k = Some v -> value_size v < value_size (VDict d).
Proof.
  intros Hk. rewrite value_size_dict.
  rewrite (map_fold_delete_L _ _ k v d); [lia | intros; lia | done].
Qed.

Lemma value_size_element l v :
  v ∈ l -> value_size v < value_size (VList l).
Proof.
  induction 1 as [x l|x y l _ IH]; simpl in *; lia.
Qed.

Lemma value_nested_ind (P : value -> Prop) :
  P VNull ->
  (forall b, P (VBool b)) ->
  (forall n, P (VInt n)) ->
  (forall s, P (VStr s)) ->
  (forall l, Forall P l -> P (VList l)) ->
  (forall d, map_Forall (fun _ v => P v) d -> P (VDict d)) ->
  forall v, P v.
Proof.
  intros Hnull Hbool Hint Hstr Hlist Hdict v.
  remember (value_size v) as n eqn:Hn. revert v Hn.
  induction n as [n IH] using lt_wf_ind. intros [] ->; auto.
  - apply Hlist, Forall_forall. intros x Hx.
    eapply IH; [by apply value_size_element|done].
  - apply Hdict. intros k x Hk.
    eapply IH; [by eapply value_size_member|done].
Qed.

(** ** Folds over maps *)

Lemma map_forallb_spec {A} (f : string -> A -> bool) (m : gmap string A) :
  map_forallb f m = true <-> forall k x, m !! k = Some x -> f k x = true.
Proof.
  unfold map_forallb.
  apply (map_fold_weak_ind (fun r m =>
    r = true <-> forall k x, m !! k = Some x -> f k x = true)).
  - split; [intros _ k x|done]. by rewrite lookup_empty.
  - intros i x m' r Hi IH. rewrite andb_true_iff, IH. split.
    + intros [Hm Hx] k y. rewrite lookup_insert_Some.
      intros [[<- <-]|[_ Hk]]; eauto.
    + intros H. split.
      * intros k y Hk. apply H. rewrite lookup_insert_ne; [done|].
        intros ->. congruence.
      * apply H. by rewrite lookup_insert_eq.
Qed.

(** ** Equality *)

Lemma py_eq_refl v : py_eq v v = true.
Proof.
  induction v as [|b|n|s|l IH|d IH] using value_nested_ind; simpl.
  - done.
  - by destruct b.
  - apply Z.eqb_refl.
  - apply String.eqb_refl.
  - induction IH as [|x l Hx _ IHl]; [done|]. by rewrite Hx, IHl.
  - rewrite Nat.eqb_refl. simpl. apply map_forallb_spec.
    intros k x Hk. rewrite Hk. by apply (IH k).
Qed.

(** ** The default-filling of [loadSectionSettings] *)

Lemma _copySettings_dict local items :
  _copySettings local (VDict items) = map_fold copy_step (Ret local) items.
Proof. reflexivity. Qed.

Lemma shape_ok_dict lm dm :
  shape_ok (VDict lm) (VDict dm) = true <->
  forall k dv lv, dm !! k = Some dv -> is_dict dv = true ->
    lm !! k = Some lv -> shape_ok lv dv = true.
Proof.
  simpl. rewrite map_forallb_spec. split.
  - intros H k dv lv Hd Hdict Hl. specialize (H k dv Hd).
    by rewrite Hdict, Hl in H.
  - intros H k dv Hd. destruct (is_dict dv) eqn:Hdict; [|done].
    destruct (lm !! k) as [lv|] eqn:Hl; [|done]. eauto.
Qed.

Lemma shape_ok_is_dict local default :
  is_dict default = true -> shape_ok local default = true -> is_dict local = true.
Proof. by destruct default, local. Qed.

Lemma _copySettings_returns_dict local dm r :
  _copySettings local (VDict dm) = Ret r -> is_dict local = true -> is_dict r = true.
Proof.
  rewrite _copySettings_dict. revert r.
  apply (map_fold_weak_ind (fun o m =>
    forall r, o = Ret r -> is_dict local = true -> is_dict r = true)).
  - by intros r [= ->].
  - intros i x m o _ IH r Hr Hl. destruct o as [l|e]; [|done].
    specialize (IH l eq_refl Hl). destruct l as [| | | | |d]; try done.
    simpl in Hr. destruct (d !! i) as [sub|] eqn:Hi; simpl in Hr.
    + destruct (is_dict x); [|by simplify_eq].
      destruct (_copySettings sub x); by simplify_eq/=.
    + by simplify_eq.
Qed.

Lemma _copySettings_filled dm :
  forall lm, shape_ok (VDict lm) (VDict dm) = true ->
  exists rm, _copySettings (VDict lm) (VDict dm) = Ret (VDict rm)
             /\ filled_level lm dm rm.
Proof.
  generalize (eq_refl (VDict dm)). generalize (VDict dm) at 1 as v. intros v. revert dm. 
  induction v as [| | | | |d IH] using value_nested_ind; try done.
  intros dm [= <-] lm Hshape. rewrite _copySettings_dict.
  rewrite shape_ok_dict in Hshape. revert IH Hshape.
  apply (map_fold_weak_ind (fun o m =>
    map_Forall (fun _ v => forall dm, v = VDict dm -> forall lm, shape_ok (VDict lm) (VDict dm) = true ->
       exists rm, _copySettings (VDict lm) (VDict dm) = Ret (VDict rm) /\ filled_level lm dm rm) m ->
    (forall k dv lv, m !! k = Some dv -> is_dict dv = true ->
       lm !! k = Some lv -> shape_ok lv dv = true) ->
    exists rm, o = Ret (VDict rm) /\ filled_level lm m rm)).
  - intros _ _. exists lm. split; [done|]. intros k. by rewrite lookup_empty.
  - intros i x m o Hi IHfold IH Hshape.
    destruct IHfold as (rm & -> & Hrm).
    { eapply map_Forall_insert_1_2; eauto. }
    { intros k dv lv Hk. apply Hshape. rewrite lookup_insert_ne; [done|]. intros ->; congruence. }
    pose proof (Hrm i) as Hrmi. rewrite Hi in Hrmi.
    simpl. rewrite Hrmi.
    destruct (lm !! i) as [lv|] eqn:Hl; simpl.
    + destruct (is_dict x) eqn:Hx.
      * assert (shape_ok lv x = true) as Hlv.
        { eapply Hshape; eauto. by rewrite lookup_insert_eq. }
        pose proof (shape_ok_is_dict _ _ Hx Hlv) as Hd.
        destruct x as [| | | | |xd]; try done.
        destruct lv as [| | | | |ld]; try done.
        destruct (IH i (VDict xd)) with (dm := xd) (lm := ld)
          as (rr & Hrr & Hfilled); [by rewrite lookup_insert_eq|done|done|].
        rewrite Hrr. simpl. eexists. split; [done|].
        intros k. destruct (decide (k = i)) as [->|Hk].
        -- rewrite !lookup_insert_eq, Hl. simpl. eauto.
        -- rewrite !lookup_insert_ne by done. apply Hrm.
      * exists rm. split; [done|].
        intros k. destruct (decide (k = i)) as [->|Hk].
        -- by rewrite lookup_insert_eq, Hl, Hx.
        -- rewrite lookup_insert_ne by done. apply Hrm.
    + eexists. split; [done|].
      intros k. destruct (decide (k = i)) as [->|Hk].
      * by rewrite !lookup_insert_eq, Hl.
      * rewrite !lookup_insert_ne by done. apply Hrm.
Qed.

(** Filling a dictionary with itself as the default changes nothing. *)
Lemma _copySettings_self v :
  is_dict v = true -> _copySettings v v = Ret v.
Proof.
  induction v as [| | | | |d IH] using value_nested_ind; try done.
  intros _. rewrite _copySettings_dict.
  cut (forall m, m ⊆ d -> map_fold copy_step (Ret (VDict d)) m = Ret (VDict d)).
  { intros H. by apply H. }
  intros m. apply (map_fold_weak_ind (fun o m =>
    m ⊆ d -> o = Ret (VDict d))); [done|].
  clear m. intros i x m o Hi IHfold Hsub.
  assert (d !! i = Some x) as Hd.
  { eapply lookup_weaken; [|done]. by rewrite lookup_insert_eq. }
  rewrite IHfold.
  2:{ etrans; [|done]. by apply insert_subseteq. }
  simpl. rewrite Hd. simpl.
  destruct (is_dict x) eqn:Hx; [|done].
  rewrite (IH i x Hd Hx). simpl. by rewrite insert_id.
Qed.

Lemma _copySettings_covers path :
  forall lm dm r,
    shape_ok (VDict lm) (VDict dm) = true ->
    _copySettings (VDict lm) (VDict dm) = Ret r ->
    path <> [] ->
    is_Some (at_path path (VDict dm)) -> is_Some (at_path path r).
Proof.
  induction path as [|k path IH]; [done|].
  intros lm dm r Hshape Hr _ Hdm.
  destruct (_copySettings_filled dm lm Hshape) as (rm & Hrm & Hlevel).
  rewrite Hrm in Hr. injection Hr as <-.
  pose proof (proj1 (shape_ok_dict _ _) Hshape) as Hinner. clear Hshape.
  specialize (Hlevel k). simpl in *.
  destruct (dm !! k) as [dv|] eqn:Hk; [simpl in Hdm|by destruct Hdm].
  destruct (lm !! k) as [lv|] eqn:Hl; [|by rewrite Hlevel].
  destruct (is_dict dv) eqn:Hdv.
  - destruct Hlevel as (rv & Hrv & -> & _). simpl.
    destruct path as [|k' path']; [done|].
    assert (shape_ok lv dv = true) as Hsub.
    { eauto. }
    pose proof (shape_ok_is_dict _ _ Hdv Hsub) as Hlv.
    destruct dv as [| | | | |dd]; try done.
    destruct lv as [| | | | |ld]; try done.
    eapply IH; eauto.
  - rewrite Hlevel. simpl. destruct path; [done|].
    destruct dv; try done; by destruct Hdm.
Qed.

Lemma _copySettings_keeps path :
  forall lm dm r sv,
    shape_ok (VDict lm) (VDict dm) = true ->
    _copySettings (VDict lm) (VDict dm) = Ret r ->
    at_path path (VDict lm) = Some sv ->
    exists rv, at_path path r = Some rv /\
      match at_path path (VDict dm) with
      | Some (VDict dd) => _copySettings sv (VDict dd) = Ret rv
      | _ => rv = sv
      end.
Proof.
  induction path as [|k path IH]; intros lm dm r sv Hshape Hr Hsv.
  { injection Hsv as <-. exists r. by split. }
  destruct (_copySettings_filled dm lm Hshape) as (rm & Hrm & Hlevel).
  rewrite Hrm in Hr. injection Hr as <-.
  pose proof (proj1 (shape_ok_dict _ _) Hshape) as Hinner. clear Hshape.
  specialize (Hlevel k). simpl in *.
  destruct (lm !! k) as [lv|] eqn:Hl; [simpl in Hsv|done].
  destruct (dm !! k) as [dv|] eqn:Hk; simpl.
  - destruct (is_dict dv) eqn:Hdv.
    + destruct Hlevel as (rv & Hrv & -> & _). simpl.
      assert (shape_ok lv dv = true) as Hsub.
      { eauto. }
      pose proof (shape_ok_is_dict _ _ Hdv Hsub) as Hlv.
      destruct dv as [| | | | |dd]; try done.
      destruct lv as [| | | | |ld]; try done.
      eapply IH; eauto.
    + rewrite Hlevel. simpl. exists sv. split; [done|].
      destruct path; [by destruct dv|by destruct dv].
  - rewrite Hlevel. simpl. eauto.
Qed.

(** Whatever [_copySettings] raises for a dictionary of defaults is a
    TypeError. *)
Lemma _copySettings_raises default :
  forall local e,
    is_dict default = true ->
    _copySettings local default = Raise e -> e = TypeError.
Proof.
  induction default as [| | | | |d IH] using value_nested_ind; try done.
  intros local e _. rewrite _copySettings_dict. revert IH e.
  apply (map_fold_weak_ind (fun o m =>
    map_Forall (fun _ v => forall local e, is_dict v = true ->
      _copySettings local v = Raise e -> e = TypeError) m ->
    forall e, o = Raise e -> e = TypeError)); [done|].
  intros i x m o Hi IHfold IH e.
  assert (forall e, o = Raise e -> e = TypeError) as Ho.
  { apply IHfold. eapply map_Forall_insert_1_2; eauto. }
  destruct o as [l|e']; [|intros [= <-]; eauto]. clear Ho IHfold.
  pose proof (IH i x (lookup_insert_eq _ _ _)) as Hx.
  destruct l as [| | |s|l|ld]; simpl; try by intros [= <-].
  - destruct (negb (is_substring i s)); simpl; [by intros [= <-]|].
    destruct (is_dict x); [by intros [= <-]|done].
  - destruct (negb _); simpl; [by intros [= <-]|].
    destruct (is_dict x); [by intros [= <-]|done].
  - destruct (ld !! i) as [sub|] eqn:Hl; simpl; [|done].
    destruct (is_dict x) eqn:Hdx; [|done].
    destruct (_copySettings sub x) as [rv|e'] eqn:Hsub; simpl; [done|].
    intros [= <-]. eauto.
Qed.

Lemma _copySettings_scalar lv dd :
  is_scalar lv = true -> dd <> ∅ ->
  _copySettings lv (VDict dd) = Raise TypeError.
Proof.
  intros Hlv. rewrite _copySettings_dict.
  cut ((dd = ∅ /\ map_fold copy_step (Ret lv) dd = Ret lv)
       \/ map_fold copy_step (Ret lv) dd = Raise TypeError).
  { intros [[-> _]|H]; done. }
  apply (map_fold_weak_ind (fun o m =>
    (m = ∅ /\ o = Ret lv) \/ o = Raise TypeError)); [by left|].
  intros i x m o _ [[_ ->]| ->]; right; [|done].
  by destruct lv.
Qed.

Lemma _copySettings_misshapen sm dm k lv dd :
  sm !! k = Some lv -> is_scalar lv = true ->
  dm !! k = Some (VDict dd) -> dd <> ∅ ->
  _copySettings (VDict sm) (VDict dm) = Raise TypeError.
Proof.
  intros Hsm Hlv Hdm Hdd.
  destruct (_copySettings (VDict sm) (VDict dm)) as [r|e] eqn:Hcopy.
  2:{ by rewrite (_copySettings_raises (VDict dm) (VDict sm) e). }
  exfalso. rewrite _copySettings_dict in Hcopy.
  cut (dm ⊆ dm -> forall r, map_fold copy_step (Ret (VDict sm)) dm = Ret r ->
       (exists rm, r = VDict rm /\ rm !! k = Some lv) /\ dm !! k = None).
  { intros H. destruct (H (reflexivity _) r Hcopy) as [_ Hk]. congruence. }
  generalize dm at 1 3 4. intros m.
  apply (map_fold_weak_ind (fun o m =>
    m ⊆ dm -> forall r, o = Ret r ->
      (exists rm, r = VDict rm /\ rm !! k = Some lv) /\ m !! k = None)).
  { intros _ r' [= <-]. eauto. }
  clear m. intros i x m o Hi IH Hsub r' Hstep.
  destruct o as [l|]; [|done].
  destruct (IH (transitivity (insert_subseteq _ _ _ Hi) Hsub) l eq_refl)
    as [(rm & -> & Hrm) Hm].
  assert (dm !! i = Some x) as Hx.
  { eapply lookup_weaken; [|done]. by rewrite lookup_insert_eq. }
  destruct (decide (i = k)) as [->|Hik].
  - assert (x = VDict dd) as -> by congruence.
    simpl in Hstep. rewrite Hrm in Hstep. simpl in Hstep.
    by rewrite (_copySettings_scalar lv dd) in Hstep.
  - rewrite lookup_insert_ne by done. split; [|done].
    simpl in Hstep. destruct (rm !! i) as [sub|] eqn:Hsubi; simpl in Hstep.
    + destruct (is_dict x).
      * destruct (_copySettings sub x); simplify_eq/=.
        eexists. split; [done|]. by rewrite lookup_insert_ne.
      * simplify_eq. eauto.
    + simplify_eq. eexists. split; [done|]. by rewrite lookup_insert_ne.
Qed.

Lemma persisted_shape self section dm :
  shape_ok (persisted self section) (VDict dm) = true ->
  exists sm, persisted self section = VDict sm.
Proof. destruct (persisted self section); try done. eauto. Qed.

(** C1, amended.  When the persisted section has the shape of the defaults
    (it is absent or a mapping and, at every depth, holds a mapping or
    nothing where the defaults hold a mapping), [loadSectionSettings]
    returns the section filled from the defaults and stores it in the
    document: the result has every key of the defaults at every depth, and a
    key the section has keeps the value of the section, which is itself
    filled by the same rule where the defaults hold a mapping for it. *)
Theorem loadSectionSettings_fills self section dm :
  shape_ok (persisted self section) (VDict dm) = true ->
  exists r,
    loadSectionSettings section (VDict dm) self
    = (Ret r, with_settings self (<[section := r]> (_settings self)))
    /\ covers r (VDict dm)
    /\ keeps (persisted self section) (VDict dm) r.
Proof.
  intros Hshape. destruct (persisted_shape _ _ _ Hshape) as [sm Hsm].
  rewrite Hsm in Hshape |- *.
  destruct (_copySettings_filled dm sm Hshape) as (rm & Hrm & _).
  exists (VDict rm). split; [|split].
  - unfold loadSectionSettings, mbind, M_bind, get_settings, lift; simpl.
    fold (persisted self section). by rewrite Hsm, Hrm.
  - intros path. by eapply _copySettings_covers.
  - intros path sv. by eapply _copySettings_keeps.
Qed.

Lemma loadSectionSettings_fills_witness :
  let self := mkLocalConfig
    {[ "A" := VDict {[ "x" := VInt 1; "k" := VDict {[ "b" := VInt 2 ]} ]} ]}
    None [] in
  let dm : dict :=
    {[ "y" := VInt 0; "x" := VInt 7; "k" := VDict {[ "a" := VInt 1 ]} ]} in
  shape_ok (persisted self "A") (VDict dm) = true
  /\ exists r,
    loadSectionSettings "A" (VDict dm) self
    = (Ret r, with_settings self (<["A" := r]> (_settings self)))
    /\ covers r (VDict dm)
    /\ keeps (persisted self "A") (VDict dm) r.
Proof.
  intros self dm. split; [reflexivity|].
  apply (loadSectionSettings_fills self "A" dm). reflexivity.
Defined.

(** C1 as stated fails: with the section [{"k": 5}] and the defaults
    [{"k": {"a": 1}}] nothing is filled, the call raises TypeError. *)
Lemma loadSectionSettings_unfillable :
  let self := mkLocalConfig {[ "A" := VDict {[ "k" := VInt 5 ]} ]} None [] in
  let defaults := VDict {[ "k" := VDict {[ "a" := VInt 1 ]} ]} in
  loadSectionSettings "A" defaults self = (Raise TypeError, self)
  /\ ~ returns (loadSectionSettings "A" defaults self).1.
Proof.
  split; [reflexivity|]. intros [r Hr]. vm_compute in Hr. discriminate.
Qed.

(** C9, amended.  [loadSectionSettings] returns normally when the persisted
    section has the shape of the defaults.  The code has no branch for the
    other case: when the section holds null, a boolean or a number under a
    key for which the defaults hold a non-empty mapping, the membership
    test of the recursive call raises TypeError and the document is left as
    it was. *)
Theorem loadSectionSettings_total self section dm :
  (shape_ok (persisted self section) (VDict dm) = true ->
   returns (loadSectionSettings section (VDict dm) self).1)
  /\ (forall sm k lv dd,
        persisted self section = VDict sm ->
        sm !! k = Some lv -> is_scalar lv = true ->
        dm !! k = Some (VDict dd) -> dd <> ∅ ->
        loadSectionSettings section (VDict dm) self = (Raise TypeError, self)).
Proof.
  split.
  - intros Hshape. destruct (persisted_shape _ _ _ Hshape) as [sm Hsm].
    rewrite Hsm in Hshape.
    destruct (_copySettings_filled dm sm Hshape) as (rm & Hrm & _).
    exists (VDict rm).
    unfold loadSectionSettings, mbind, M_bind, get_settings, lift; simpl.
    fold (persisted self section). by rewrite Hsm, Hrm.
  - intros sm k lv dd Hsm Hk Hlv Hdm Hdd.
    unfold loadSectionSettings, mbind, M_bind, get_settings, lift; simpl.
    fold (persisted self section).
    by rewrite Hsm, (_copySettings_misshapen sm dm k lv dd).
Qed.

Lemma loadSectionSettings_total_witness :
  let self := mkLocalConfig {[ "A" := VDict {[ "k" := VDict ∅ ]} ]} None [] in
  let bad := mkLocalConfig {[ "A" := VDict {[ "k" := VInt 5 ]} ]} None [] in
  let dm : dict := {[ "k" := VDict {[ "a" := VInt 1 ]} ]} in
  returns (loadSectionSettings "A" (VDict dm) self).1
  /\ loadSectionSettings "A" (VDict dm) bad = (Raise TypeError, bad).
Proof.
  intros self bad dm. split.
  - apply (proj1 (loadSectionSettings_total self "A" dm)). reflexivity.
  - apply (proj2 (loadSectionSettings_total bad "A" dm)
             {[ "k" := VInt 5 ]} "k" (VInt 5) {[ "a" := VInt 1 ]});
      try reflexivity.
    intros H. apply (f_equal (fun m : dict => m !! "a")) in H.
    vm_compute in H. discriminate.
Defined.

(** C9 as stated fails: a value that is not a mapping, under a key for
    which the defaults hold a mapping, does not always lead to an error.
    The number 5 against the empty mapping, and the string "xay" against
    [{"a": 1}], are kept and the call returns. *)
Lemma loadSectionSettings_no_error_branch :
  let self := mkLocalConfig
    {[ "A" := VDict {[ "k" := VInt 5; "s" := VStr "xay" ]} ]} None [] in
  let defaults :=
    VDict {[ "k" := VDict ∅; "s" := VDict {[ "a" := VInt 1 ]} ]} in
  (loadSectionSettings "A" defaults self).1
  = Ret (VDict {[ "k" := VInt 5; "s" := VStr "xay" ]}).
Proof. vm_compute. reflexivity. Qed.

(** ** Reading the file *)

Lemma with_settings_same self : with_settings self (_settings self) = self.
Proof. by destruct self. Qed.

Lemma update_loaded_section_noop self section :
  is_Some (_settings self !! section) ->
  update_loaded_section section self = (Ret tt, self).
Proof.
  intros [v Hv].
  unfold update_loaded_section, mbind, M_bind, get_settings; simpl.
  rewrite Hv. destruct (is_dict v) eqn:Hdict; [|done].
  unfold loadSectionSettings, mbind, M_bind, get_settings, lift; simpl.
  rewrite Hv; simpl. rewrite (_copySettings_self v Hdict).
  unfold set_item, put_settings, mbind, M_bind, get_settings; simpl.
  by rewrite insert_id, with_settings_same.
Qed.

Lemma update_loaded_sections_noop self :
  for_keys (_settings self) update_loaded_section self = (Ret tt, self).
Proof.
  unfold for_keys.
  cut (forall m, m ⊆ _settings self ->
    map_fold (fun k (_ : value) (acc : M unit) =>
      acc ≫= fun _ => update_loaded_section k) (mret tt) m self
    = (Ret tt, self)).
  { intros H. by apply H. }
  intros m. apply (map_fold_weak_ind (fun (acc : M unit) m =>
    m ⊆ _settings self -> acc self = (Ret tt, self))); [done|].
  clear m. intros i x m acc Hi IH Hsub.
  unfold mbind at 1, M_bind at 1. rewrite IH.
  2:{ etrans; [|done]. by apply insert_subseteq. }
  apply update_loaded_section_noop. exists x.
  eapply lookup_weaken; [|done]. by rewrite lookup_insert_eq.
Qed.

Lemma reload_tail self :
  (get_settings ≫= fun current =>
     for_keys current update_loaded_section ≫= fun _ => mret ∅) self
  = (Ret (∅ : dict), self).
Proof.
  unfold mbind, M_bind, get_settings.
  by rewrite update_loaded_sections_noop.
Qed.

Lemma _readConfig_unreadable self :
  _readConfig Unreadable self = (Ret ∅, self).
Proof.
  unfold _readConfig. unfold mbind at 1, M_bind at 1.
  change (try_io _ self) with (Ret tt, self). apply reload_tail.
Qed.

Lemma _readConfig_garbled self mtime :
  _readConfig (Garbled mtime) self = (Ret ∅, with_mtime self mtime).
Proof.
  unfold _readConfig. unfold mbind at 1, M_bind at 1.
  change (try_io _ self) with (Ret tt, with_mtime self mtime).
  apply reload_tail.
Qed.

Lemma _readConfig_object self mtime config :
  _readConfig (Parsed mtime (JObject config)) self
  = (Ret ∅, with_settings (with_mtime self mtime) (config ∪ _settings self)).
Proof.
  unfold _readConfig. unfold mbind at 1, M_bind at 1.
  change (try_io _ self) with
    (Ret tt, with_settings (with_mtime self mtime) (config ∪ _settings self)).
  apply reload_tail.
Qed.

Lemma _readConfig_string self mtime s :
  _readConfig (Parsed mtime (JString s)) self = (Ret ∅, with_mtime self mtime).
Proof.
  unfold _readConfig. unfold mbind at 1, M_bind at 1.
  assert (try_io (set_mtime mtime ;; d ← get_settings;
            let '(r, d) := dict_update d (JString s) in put_settings d ;; lift r)
            self = (Ret tt, with_mtime self mtime)) as ->.
  { by destruct s, self. }
  apply reload_tail.
Qed.

(** C3, amended.  [_readConfig] returns normally on a file that cannot be
    opened, on one that is not valid JSON and on one that holds a JSON
    object or a JSON string.  When the file cannot be opened the document
    and the recorded timestamp are unchanged.  Once it is open its
    modification time is recorded, before it is parsed: a file that is not
    valid JSON, or that holds a string, changes the timestamp and leaves the
    document unchanged; the top-level keys of an object are merged into the
    document, the values of the file replacing those of the document.
    Nothing is written to the disk. *)
Theorem readConfig_outcomes self :
  _readConfig Unreadable self = (Ret ∅, self)
  /\ (forall mtime,
        _readConfig (Garbled mtime) self = (Ret ∅, with_mtime self mtime))
  /\ (forall mtime s,
        _readConfig (Parsed mtime (JString s)) self
        = (Ret ∅, with_mtime self mtime))
  /\ (forall mtime config,
        _readConfig (Parsed mtime (JObject config)) self
        = (Ret ∅, mkLocalConfig (config ∪ _settings self) (Some mtime)
                    (journal self))).
Proof.
  split; [apply _readConfig_unreadable|].
  split; [apply _readConfig_garbled|].
  split; [apply _readConfig_string|].
  apply _readConfig_object.
Qed.

(** C3 as stated fails twice: a file holding the JSON number 5 makes
    [dict.update] raise TypeError, which is not caught, and a file that is
    not valid JSON changes the recorded timestamp. *)
Lemma readConfig_raises_and_stamps :
  let self := mkLocalConfig ∅ (Some 3%Z) [] in
  (_readConfig (Parsed 7 (JScalar (SInt 5))) self).1 = Raise TypeError
  /\ _last_config_changed (_readConfig (Garbled 7) self).2 = Some 7%Z
  /\ _last_config_changed self = Some 3%Z.
Proof. by vm_compute. Qed.

(** C7, amended.  The pass of [_readConfig] over the loaded sections fills
    every top-level mapping from itself, no default template being kept by
    [loadSectionSettings]: it changes nothing.  After a file holding an
    object has been read, every key of the file has the value of the file,
    and the other keys of the document have the value they had.  So a
    section that the file holds has the keys of the section of the file
    and no other: a key of the defaults it was loaded with is there if and
    only if the file has it. *)
Theorem readConfig_sections self mtime config :
  for_keys (_settings self) update_loaded_section self = (Ret tt, self)
  /\ (forall section v, config !! section = Some v ->
        document (_readConfig (Parsed mtime (JObject config)) self) !! section
        = Some v)
  /\ (forall section, config !! section = None ->
        document (_readConfig (Parsed mtime (JObject config)) self) !! section
        = _settings self !! section)
  /\ (forall section c k, config !! section = Some (VDict c) ->
        at_path [section; k]
          (VDict (document (_readConfig (Parsed mtime (JObject config)) self)))
        = c !! k).
Proof.
  split; [apply update_loaded_sections_noop|].
  rewrite _readConfig_object. unfold document; simpl. split; [|split].
  - intros section v Hv. by rewrite (lookup_union_Some_l _ _ _ _ Hv).
  - intros section Hnone. by rewrite lookup_union_r.
  - intros section c k Hc. rewrite (lookup_union_Some_l _ _ _ _ Hc). simpl.
    by destruct (c !! k).
Qed.

Lemma readConfig_sections_witness :
  let self := mkLocalConfig
    {[ "A" := VDict {[ "x" := VInt 1; "y" := VInt 2 ]}; "B" := VDict ∅ ]}
    None [] in
  let config : dict := {[ "A" := VDict {[ "x" := VInt 5 ]} ]} in
  document (_readConfig (Parsed 1 (JObject config)) self) !! "A"
  = Some (VDict {[ "x" := VInt 5 ]})
  /\ document (_readConfig (Parsed 1 (JObject config)) self) !! "B"
     = Some (VDict ∅)
  /\ at_path ["A"; "y"]
       (VDict (document (_readConfig (Parsed 1 (JObject config)) self)))
     = None.
Proof.
  intros self config.
  destruct (readConfig_sections self 1 config) as (_ & Hfile & Hother & Hkeys).
  split; [|split].
  - apply Hfile. reflexivity.
  - apply (Hother "B"). reflexivity.
  - etrans; [apply (Hkeys "A" {[ "x" := VInt 5 ]} "y")|]; reflexivity.
Defined.

(** C7 as stated fails: a section loaded with the defaults
    [{"x": 1, "y": 2}] has the key [y]; once a file whose section is
    [{"x": 5}] has been read, the key is gone. *)
Lemma readConfig_drops_defaults :
  let self0 := mkLocalConfig ∅ None [] in
  let defaults := VDict {[ "x" := VInt 1; "y" := VInt 2 ]} in
  let self1 := (loadSectionSettings "A" defaults self0).2 in
  let file := Parsed 1 (JObject {[ "A" := VDict {[ "x" := VInt 5 ]} ]}) in
  let self2 := (_readConfig file self1).2 in
  at_path ["A"; "y"] (VDict (_settings self1)) = Some (VInt 2)
  /\ (_readConfig file self1).1 = Ret ∅
  /\ at_path ["A"; "y"] (VDict (_settings self2)) = None
  /\ at_path ["A"; "x"] (VDict (_settings self2)) = Some (VInt 5).
Proof. by vm_compute. Qed.

(** ** The migration of the pre-1.4 document *)

Ltac run_method :=
  unfold servers_setitem, set_item, put_settings, get_settings, lift, raise,
    mbind, M_bind, mret, M_ret, with_settings; simpl.

Lemma migrate_servers_block self :
  let d := _settings self in
  let '(o, sv') :=
    servers_block (d !! "Servers") (d !! "LocalServer") (d !! "RemoteServers") in
  migrate_servers self = (o, with_settings self (with_entry "Servers" sv' d)).
Proof.
  destruct self as [d t j]. unfold migrate_servers, servers_block. run_method.
  destruct (d !! "Servers") as [sv|] eqn:Hsv; simpl.
  - destruct (d !! "LocalServer") as [ls|] eqn:Hls; simpl.
    + destruct sv as [| | | | |sd]; simpl; try by rewrite insert_id.
      destruct ls as [| | | | |ld]; simpl; try done.
      destruct (ld !! "path") as [p|] eqn:Hp; simpl; [|done].
      destruct (py_eq p (VStr old_server_path)); simpl;
        rewrite ?lookup_insert_ne by done;
        destruct (d !! "RemoteServers") as [rs|] eqn:Hrs; simpl;
        by rewrite ?insert_insert_eq.
    + destruct (d !! "RemoteServers") as [rs|] eqn:Hrs; simpl.
      * destruct sv as [| | | | |sd]; simpl; try by rewrite insert_id.
        by rewrite ?insert_insert_eq.
      * done.
  - destruct (d !! "LocalServer") as [ls|] eqn:Hls; simpl.
    + destruct ls as [| | | | |ld]; simpl; try done.
      destruct (ld !! "path") as [p|] eqn:Hp; simpl; [|done].
      destruct (py_eq p (VStr old_server_path)); simpl;
        by destruct (d !! "RemoteServers") as [rs|] eqn:Hrs.
    + by destruct (d !! "RemoteServers") as [rs|] eqn:Hrs.
Qed.

(** Equalities between dictionaries built by assignments. *)
Ltac same_dict :=
  lazymatch goal with
  | |- (_, Some (VDict _)) = (_, Some (VDict _)) => do 3 f_equal
  | |- _ => idtac
  end;
  apply map_eq; intros ?;
  rewrite ?lookup_insert; repeat case_decide; congruence.

Lemma lookup_with_entry k entry d :
  with_entry k entry d !! k = from_option Some (d !! k) entry.
Proof. destruct entry; simpl; [by rewrite lookup_insert_eq|done]. Qed.

Lemma lookup_with_entry_ne k k' entry d :
  k <> k' -> with_entry k entry d !! k' = d !! k'.
Proof. intros. destruct entry; simpl; [by rewrite lookup_insert_ne|done]. Qed.

Lemma with_entry_twice k entry d :
  with_entry k entry (with_entry k entry d) = with_entry k entry d.
Proof. destruct entry; simpl; [by rewrite insert_insert_eq|done]. Qed.

Lemma servers_block_again sv ls rs o sv' :
  servers_block sv ls rs = (o, sv') ->
  servers_block (from_option Some sv sv') ls rs = (o, sv').
Proof.
  unfold servers_block.
  destruct ls as [ls|].
  2:{ destruct sv as [[| | | | |sd]|], rs as [rs|]; simpl;
        intros [= <- <-]; simpl; first [done|same_dict]. }
  destruct (py_getitem ls "path") as [p|e] eqn:Hp; simpl.
  2:{ destruct sv as [[| | | | |sd]|], rs as [rs|]; simpl;
        intros [= <- <-]; simpl; rewrite ?Hp; first [done|same_dict]. }
  assert (exists ld, ls = VDict ld) as [ld ->].
  { destruct ls; try done. eauto. }
  simpl in *. clear Hp.
  destruct (py_eq p (VStr old_server_path)) eqn:Heq; simpl;
    destruct sv as [[| | | | |sd]|], rs as [rs|]; simpl;
    intros [= <- <-]; simpl; rewrite ?Heq; simpl; first [done|same_dict].
Qed.

Lemma with_entry_same k entry d :
  d !! k = from_option Some (d !! k) entry -> with_entry k entry d = d.
Proof. destruct entry; simpl; [intros; by apply insert_id|done]. Qed.

Lemma migrate_main_window_block self :
  let d := _settings self in
  let '(o, mw') := main_window_block (d !! "GUI") (d !! "MainWindow") in
  migrate_main_window self
  = (o, with_settings self (with_entry "MainWindow" mw' d)).
Proof.
  destruct self as [d t j]. unfold migrate_main_window, main_window_block.
  run_method.
  destruct (d !! "GUI") as [gui|] eqn:Hgui; simpl.
  2:{ destruct (d !! "MainWindow") eqn:Hmw; simpl;
        first [done|by rewrite insert_id]. }
  destruct gui as [| | | | |gd]; simpl;
    try (destruct (d !! "MainWindow") eqn:Hmw; simpl;
         first [done|by rewrite insert_id]).
  destruct (d !! "MainWindow") as [[| | | | |wd]|] eqn:Hmw; simpl;
    first [done|by rewrite insert_id].
Qed.

Lemma main_window_block_again gui mw o mw' :
  main_window_block gui mw = (o, mw') ->
  main_window_block gui (from_option Some mw mw') = (o, mw').
Proof.
  unfold main_window_block.
  destruct gui as [[| | | | |gd]|]; simpl;
    try (intros [= <- <-]; by destruct mw).
  destruct mw as [[| | | | |wd]|]; simpl; intros [= <- <-]; simpl;
    first [done|same_dict].
Qed.

Section Migration.

Context {Version : Type}.
Variable parse_version : string -> Version.
Variable version_lt : Version -> Version -> bool.

Local Abbreviation migrate := (_migrateOldConfig parse_version version_lt).
Local Abbreviation old := (predates_cutoff parse_version version_lt).
Local Abbreviation blocks := (migrated parse_version version_lt).

Lemma _migrateOldConfig_migrated self :
  migrate self
  = ((blocks (_settings self)).1,
     with_settings self (blocks (_settings self)).2).
Proof.
  unfold _migrateOldConfig, migrated.
  unfold mbind at 1 2, M_bind at 1 2, get_settings, lift. simpl.
  destruct (old (_settings self)) as [[|]|e]; simpl;
    [|by rewrite with_settings_same..].
  unfold mbind at 1, M_bind at 1.
  pose proof (migrate_servers_block self) as H1. simpl in H1.
  destruct (servers_block _ _ _) as [o1 sv']. rewrite H1.
  destruct o1 as [[]|e]; [|done].
  pose proof (migrate_main_window_block
                (with_settings self
                   (with_entry "Servers" sv' (_settings self)))) as H2.
  simpl in H2. rewrite !lookup_with_entry_ne in H2 by done.
  destruct (main_window_block _ _) as [o2 mw']. by rewrite H2.
Qed.

Lemma migrated_again d : blocks (blocks d).2 = blocks d.
Proof.
  unfold migrated at 2 3.
  destruct (old d) as [[|]|e] eqn:Hold; simpl;
    [|unfold migrated; by rewrite Hold..].
  destruct (servers_block _ _ _) as [o1 sv'] eqn:H1.
  apply servers_block_again in H1.
  destruct o1 as [[]|e].
  - destruct (main_window_block _ _) as [o2 mw'] eqn:H2.
    apply main_window_block_again in H2. simpl.
    unfold migrated.
    assert (old (with_entry "MainWindow" mw' (with_entry "Servers" sv' d))
            = Ret true) as ->.
    { unfold predates_cutoff in *.
      by rewrite !lookup_with_entry_ne by done. }
    rewrite !(lookup_with_entry_ne "MainWindow") by done.
    rewrite !(lookup_with_entry_ne "Servers" "LocalServer") by done.
    rewrite !(lookup_with_entry_ne "Servers" "RemoteServers") by done.
    rewrite !(lookup_with_entry_ne "Servers" "GUI") by done.
    rewrite lookup_with_entry, H1.
    rewrite lookup_with_entry, (lookup_with_entry_ne "Servers") by done.
    rewrite H2. f_equal.
    rewrite (with_entry_same "Servers").
    2:{ rewrite lookup_with_entry_ne, lookup_with_entry by done.
        by destruct sv'. }
    by rewrite with_entry_twice.
  - simpl. unfold migrated.
    assert (old (with_entry "Servers" sv' d) = Ret true) as ->.
    { unfold predates_cutoff in *.
      by rewrite !lookup_with_entry_ne by done. }
    rewrite !(lookup_with_entry_ne "Servers" "LocalServer") by done.
    rewrite !(lookup_with_entry_ne "Servers" "RemoteServers") by done.
    rewrite lookup_with_entry, H1.
    by rewrite with_entry_twice.
Qed.

(** C4.  Migrating a second time gives the outcome and the document of
    the first time; and a document whose version is not below 1.4.0 is
    left as it is. *)
Theorem migrateOldConfig_idempotent self :
  migrate (migrate self).2 = migrate self
  /\ (forall v,
        _settings self !! "version" = Some (VStr v) ->
        version_lt (parse_version v) (parse_version "1.4.0") = false ->
        migrate self = (Ret tt, self)).
Proof.
  split.
  - rewrite !_migrateOldConfig_migrated. simpl.
    rewrite migrated_again. by destruct self.
  - intros v Hv Hlt. rewrite _migrateOldConfig_migrated.
    unfold migrated, predates_cutoff. rewrite Hv, Hlt. simpl.
    by rewrite with_settings_same.
Qed.

(** C2, amended.  A document without [version] whose [LocalServer] holds
    the old path of the server, and whose [Servers], [GUI] and
    [MainWindow] are mappings where present, is migrated without error:
    afterwards [Servers.local_server.path] is the new path, and
    [LocalServer] is still there, as it was. *)
Theorem migrateOldConfig_local_server self ls :
  _settings self !! "version" = None ->
  _settings self !! "LocalServer" = Some (VDict ls) ->
  ls !! "path" = Some (VStr old_server_path) ->
  absent_or_dict (_settings self !! "Servers") = true ->
  absent_or_dict (_settings self !! "GUI") = true ->
  absent_or_dict (_settings self !! "MainWindow") = true ->
  (migrate self).1 = Ret tt
  /\ at_path ["Servers"; "local_server"; "path"]
       (VDict (document (migrate self)))
     = Some (VStr new_server_path)
  /\ document (migrate self) !! "LocalServer" = Some (VDict ls).
Proof.
  intros Hver Hls Hpath Hsv Hgui Hmw.
  rewrite _migrateOldConfig_migrated. unfold document. simpl.
  unfold migrated, predates_cutoff. rewrite Hver, Hls.
  assert (exists o sd,
    servers_block (_settings self !! "Servers") (Some (VDict ls))
      (_settings self !! "RemoteServers") = (Ret o, Some (VDict sd))
    /\ sd !! "local_server"
       = Some (VDict (<["path" := VStr new_server_path]> ls)))
    as (o & sd & -> & Hsd).
  { unfold servers_block.
    destruct (_settings self !! "Servers") as [[| | | | |sd]|]; try done;
      simpl; rewrite Hpath; simpl;
      destruct (_settings self !! "RemoteServers"); simpl;
      eexists _, _; (split; [done|]);
      by rewrite ?lookup_insert_ne, lookup_insert_eq by done. }
  assert (exists mw',
    main_window_block (_settings self !! "GUI")
      (_settings self !! "MainWindow") = (Ret tt, mw')) as (mw' & ->).
  { unfold main_window_block.
    destruct (_settings self !! "GUI") as [[| | | | |gd]|]; try done;
      [|by eauto].
    destruct (_settings self !! "MainWindow") as [[| | | | |wd]|];
      try done; simpl; eauto. }
  destruct o. split; [done|]. split.
  - destruct mw'; simpl; rewrite ?lookup_insert_ne by done;
      rewrite lookup_insert_eq; simpl; rewrite Hsd; simpl;
      by rewrite lookup_insert_eq.
  - destruct mw'; simpl; by rewrite !lookup_insert_ne.
Qed.

End Migration.

Lemma migrateOldConfig_idempotent_witness :
  let self := mkLocalConfig
    {[ "version" := VStr "1.10.0";
       "LocalServer" := VDict {[ "path" := VStr old_server_path ]} ]}
    None [] in
  dotted_migrate (dotted_migrate self).2 = dotted_migrate self
  /\ dotted_migrate self = (Ret tt, self).
Proof.
  intros self.
  destruct (migrateOldConfig_idempotent
              Dotted.parse_version Dotted.version_lt self) as [Htwice Hnew].
  split; [exact Htwice|].
  apply (Hnew "1.10.0"); reflexivity.
Defined.

Lemma migrateOldConfig_local_server_witness :
  let self := mkLocalConfig
    {[ "LocalServer" := VDict {[ "path" := VStr old_server_path ]};
       "GUI" := VDict ∅ ]}
    None [] in
  (dotted_migrate self).1 = Ret tt
  /\ at_path ["Servers"; "local_server"; "path"]
       (VDict (document (dotted_migrate self)))
     = Some (VStr new_server_path)
  /\ document (dotted_migrate self) !! "LocalServer"
     = Some (VDict {[ "path" := VStr old_server_path ]}).
Proof.
  intros self.
  apply (migrateOldConfig_local_server
           Dotted.parse_version Dotted.version_lt self
           {[ "path" := VStr old_server_path ]}); reflexivity.
Defined.

(** C2 as stated fails: the document
    [{"LocalServer": {"path": <old path>}}] still has its top-level
    [LocalServer] after the migration, next to the new [Servers]. *)
Lemma migrateOldConfig_keeps_LocalServer :
  let self := mkLocalConfig
    {[ "LocalServer" := VDict {[ "path" := VStr old_server_path ]} ]}
    None [] in
  _settings self !! "version" = None
  /\ dotted_migrate self
     = (Ret tt,
        mkLocalConfig
          {[ "LocalServer" := VDict {[ "path" := VStr old_server_path ]};
             "Servers" := VDict {[ "local_server" :=
                 VDict {[ "path" := VStr new_server_path ]} ]} ]}
          None [])
  /\ is_Some (document (dotted_migrate self) !! "LocalServer").
Proof.
  split; [reflexivity|]. split; [by vm_compute|].
  eexists. vm_compute. reflexivity.
Qed.

(** ** Saving *)

Section Saving.

Variable __version__ : string.

#[local] Arguments py_eq : simpl never.

Lemma _writeConfig_result io self :
  _writeConfig __version__ io self
  = (Ret tt,
     let doc := <["version" := VStr __version__]> (_settings self) in
     mkLocalConfig doc
       (match io with
        | WriteOk mtime => Some mtime
        | WriteFails => _last_config_changed self
        end)
       (write_event io doc :: journal self)).
Proof. by destruct io. Qed.

Lemma persisted_dict self section pm :
  persisted self section = VDict pm ->
  _settings self !! section = Some (VDict pm)
  \/ (_settings self !! section = None /\ pm = ∅).
Proof.
  unfold persisted. destruct (_settings self !! section) as [v|]; simpl.
  - intros ->. by left.
  - intros [= <-]. by right.
Qed.

Lemma saveSectionSettings_result io self section s pm :
  persisted self section = VDict pm ->
  saveSectionSettings __version__ io section s self
  = if py_eq (VDict pm) (VDict s)
    then (Ret tt,
          with_settings self (<[section := VDict pm]> (_settings self)))
    else _writeConfig __version__ io
           (with_settings self
              (<[section := VDict (s ∪ pm)]> (_settings self))).
Proof.
  intros Hp. destruct self as [d t j].
  destruct (persisted_dict _ _ _ Hp) as [Hd|[Hd ->]]; simpl in Hd.
  - unfold saveSectionSettings. run_method. rewrite Hd. simpl.
    rewrite Hd. destruct (py_eq (VDict pm) (VDict s)); simpl.
    + by rewrite insert_id.
    + by destruct io.
  - unfold saveSectionSettings. run_method. rewrite Hd. simpl.
    rewrite lookup_insert_eq.
    destruct (py_eq (VDict ∅) (VDict s)); simpl; [done|].
    rewrite insert_insert_eq. by destruct io.
Qed.

Lemma setSettings_result io self doc :
  setSettings __version__ io doc self
  = if py_eq (VDict (_settings self)) (VDict doc)
    then (Ret tt, self)
    else _writeConfig __version__ io (with_settings self (doc ∪ _settings self)).
Proof.
  destruct self as [d t j]. unfold setSettings. run_method.
  destruct (py_eq (VDict d) (VDict doc)); simpl; [done|by destruct io].
Qed.

(** C5, amended.  For a section that is absent or a mapping,
    [saveSectionSettings] returns, the section being created empty when
    it was absent.  When the given mapping equals the content of the
    section, as [==] has it, nothing is merged and nothing is written.
    Otherwise the mapping is merged into the section, its values
    replacing those of the section, the version is stamped and the whole
    document is written; this is so even when the merge leaves the
    content of the section as it was. *)
Theorem saveSectionSettings_merges io self section s pm :
  persisted self section = VDict pm ->
  let r := saveSectionSettings __version__ io section s self in
  r.1 = Ret tt
  /\ if py_eq (VDict pm) (VDict s)
     then document r = <[section := VDict pm]> (_settings self)
          /\ journal r.2 = journal self
     else document r
          = <["version" := VStr __version__]>
              (<[section := VDict (s ∪ pm)]> (_settings self))
          /\ journal r.2 = write_event io (document r) :: journal self.
Proof.
  intros Hp r. subst r. rewrite (saveSectionSettings_result _ _ _ _ pm Hp).
  destruct (py_eq (VDict pm) (VDict s)); [done|].
  by rewrite _writeConfig_result.
Qed.

(** C6, amended.  For a section that is absent or a mapping: when the
    given mapping equals the content of the section, [saveSectionSettings]
    writes nothing and leaves the recorded timestamp as it was, the
    document changing only by the empty section created when there was
    none; in particular, saving the very content of a section changes
    nothing at all.  In every other case it runs [_writeConfig] on the
    document with the mapping merged into the section: the whole document
    goes to the disk, and the timestamp is that of the new file when the
    file system accepts the write. *)
Theorem saveSectionSettings_noop_or_write io self section s :
  absent_or_dict (_settings self !! section) = true ->
  let r := saveSectionSettings __version__ io section s self in
  (py_eq (persisted self section) (VDict s) = true ->
     r = (Ret tt,
          with_settings self
            (<[section := persisted self section]> (_settings self)))
     /\ journal r.2 = journal self
     /\ _last_config_changed r.2 = _last_config_changed self)
  /\ (_settings self !! section = Some (VDict s) -> r = (Ret tt, self))
  /\ (py_eq (persisted self section) (VDict s) = false ->
     (forall pm, persisted self section = VDict pm ->
        r = _writeConfig __version__ io
              (with_settings self
                 (<[section := VDict (s ∪ pm)]> (_settings self))))
     /\ journal r.2 = write_event io (document r) :: journal self
     /\ forall mtime, io = WriteOk mtime ->
          journal r.2 = Saved (document r) mtime :: journal self
          /\ _last_config_changed r.2 = Some mtime).
Proof.
  intros Hshape r.
  assert (exists pm, persisted self section = VDict pm) as [pm Hp].
  { unfold persisted.
    destruct (_settings self !! section) as [[]|]; try done; simpl; eauto. }
  subst r. rewrite (saveSectionSettings_result _ _ _ _ pm Hp), Hp.
  split; [|split].
  - by intros ->.
  - intros Hs. unfold persisted in Hp. rewrite Hs in Hp. simpl in Hp.
    injection Hp as <-. rewrite py_eq_refl.
    by rewrite insert_id, with_settings_same.
  - intros ->. split; [by intros pm' [= <-]|].
    rewrite _writeConfig_result. split; [done|]. by intros mtime ->.
Qed.

(** C10, amended.  [saveSectionSettings] on a section other than
    [version] keeps every key of the section that the given mapping does
    not have, with its value.  [setSettings] keeps every top-level key,
    and keeps the value of every top-level key other than [version] that
    the given document does not have; [version] is set to the version of
    the application whenever the document is written. *)
Theorem mutators_keep_keys io self :
  (forall section s sec k v,
      section <> "version" ->
      _settings self !! section = Some (VDict sec) ->
      sec !! k = Some v -> s !! k = None ->
      exists sec',
        document (saveSectionSettings __version__ io section s self) !! section
        = Some (VDict sec')
        /\ sec' !! k = Some v)
  /\ (forall doc k v,
        k <> "version" ->
        _settings self !! k = Some v -> doc !! k = None ->
        document (setSettings __version__ io doc self) !! k = Some v)
  /\ (forall doc k,
        is_Some (_settings self !! k) ->
        is_Some (document (setSettings __version__ io doc self) !! k)).
Proof.
  split; [|split].
  - intros section s sec k v Hsection Hsec Hk Hs.
    rewrite (saveSectionSettings_result _ _ _ _ sec).
    2:{ unfold persisted. by rewrite Hsec. }
    destruct (py_eq (VDict sec) (VDict s)).
    + exists sec. unfold document; simpl. by rewrite lookup_insert_eq.
    + exists (s ∪ sec). rewrite _writeConfig_result. unfold document; simpl.
      rewrite lookup_insert_ne, lookup_insert_eq by done.
      split; [done|]. by rewrite lookup_union_r.
  - intros doc k v Hk Hv Hdoc. rewrite setSettings_result.
    destruct (py_eq _ _); [done|].
    rewrite _writeConfig_result. unfold document; simpl.
    by rewrite lookup_insert_ne, lookup_union_r.
  - intros doc k Hk. rewrite setSettings_result.
    destruct (py_eq _ _); [done|].
    rewrite _writeConfig_result. unfold document; simpl.
    destruct (decide (k = "version")) as [->|Hne].
    + by rewrite lookup_insert_eq.
    + rewrite lookup_insert_ne, lookup_union_is_Some by done. by right.
Qed.

(** Whatever the version of the application, [setSettings] can change the
    value of a top-level key that the given document does not have. *)
Lemma setSettings_restamps :
  let self := mkLocalConfig {[ "version" := VStr (String "0" __version__) ]}
                None [] in
  let doc : dict := {[ "A" := VDict ∅ ]} in
  doc !! "version" = None
  /\ document (setSettings __version__ WriteFails doc self) !! "version"
     = Some (VStr __version__)
  /\ _settings self !! "version" <> Some (VStr __version__).
Proof.
  intros self doc. split; [done|]. split.
  - rewrite setSettings_result.
    assert (py_eq (VDict (_settings self)) (VDict doc) = false) as ->
      by (by vm_compute).
    rewrite _writeConfig_result. unfold document; simpl.
    by rewrite lookup_insert_eq.
  - subst self. simpl. rewrite lookup_singleton_eq. intros [= H].
    apply (f_equal String.length) in H. simpl in H. lia.
Qed.

End Saving.

Lemma saveSectionSettings_merges_witness :
  let self := mkLocalConfig {[ "A" := VDict {[ "a" := VInt 1 ]} ]} None [] in
  let s : dict := {[ "b" := VInt 2 ]} in
  let r := saveSectionSettings "1.4.0" (WriteOk 9) "A" s self in
  r.1 = Ret tt
  /\ document r
     = <["version" := VStr "1.4.0"]>
         (<["A" := VDict (s ∪ {[ "a" := VInt 1 ]})]> (_settings self))
  /\ journal r.2 = [Saved (document r) 9].
Proof.
  intros self s r.
  pose proof (saveSectionSettings_merges "1.4.0" (WriteOk 9) self "A" s
                {[ "a" := VInt 1 ]} eq_refl) as H.
  exact H.
Defined.

(** C5 as stated fails: merging [{"a": 1}] into the section
    [{"a": 1, "b": 2}] leaves the section as it was, and the document is
    written all the same. *)
Lemma saveSectionSettings_writes_unchanged :
  let self := mkLocalConfig
    {[ "version" := VStr "1.4.0";
       "A" := VDict {[ "a" := VInt 1; "b" := VInt 2 ]} ]} None [] in
  let r := saveSectionSettings "1.4.0" (WriteOk 9) "A" {[ "a" := VInt 1 ]} self in
  document r = _settings self
  /\ journal self = []
  /\ journal r.2 = [Saved (_settings self) 9].
Proof. by vm_compute. Qed.

Lemma saveSectionSettings_noop_or_write_witness :
  let self := mkLocalConfig {[ "A" := VDict {[ "a" := VInt 1 ]} ]} (Some 3%Z) [] in
  let same := saveSectionSettings "1.4.0" (WriteOk 9) "A" {[ "a" := VInt 1 ]} self in
  let alike := saveSectionSettings "1.4.0" (WriteOk 9) "A" {[ "a" := VBool true ]} self in
  let other := saveSectionSettings "1.4.0" (WriteOk 9) "A" {[ "a" := VInt 2 ]} self in
  same = (Ret tt, self)
  /\ (journal alike.2 = [] /\ _last_config_changed alike.2 = Some 3%Z)
  /\ other
     = _writeConfig "1.4.0" (WriteOk 9)
         (with_settings self
            (<["A" := VDict ({[ "a" := VInt 2 ]} ∪ {[ "a" := VInt 1 ]})]>
               (_settings self)))
  /\ (journal other.2 = [Saved (document other) 9]
      /\ _last_config_changed other.2 = Some 9%Z).
Proof.
  intros self same alike other.
  destruct (saveSectionSettings_noop_or_write "1.4.0" (WriteOk 9) self "A"
              {[ "a" := VInt 1 ]} eq_refl) as (_ & Hsame & _).
  destruct (saveSectionSettings_noop_or_write "1.4.0" (WriteOk 9) self "A"
              {[ "a" := VBool true ]} eq_refl) as (Halike & _ & _).
  destruct (saveSectionSettings_noop_or_write "1.4.0" (WriteOk 9) self "A"
              {[ "a" := VInt 2 ]} eq_refl) as (_ & _ & Hother).
  split; [|split; [|split]].
  - apply Hsame. reflexivity.
  - apply Halike. reflexivity.
  - apply (proj1 (Hother eq_refl)). reflexivity.
  - apply (proj2 (proj2 (Hother eq_refl)) 9%Z). reflexivity.
Defined.

(** C6 as stated fails: the entry [version] is a string; saving the mapping
    [{"a": 1}] under that name, which is not equal to the entry, raises
    AttributeError and nothing is written. *)
Lemma saveSectionSettings_raises_on_version :
  let self := mkLocalConfig {[ "version" := VStr "1.4.0" ]} (Some 3%Z) [] in
  let s : dict := {[ "a" := VInt 1 ]} in
  let r := saveSectionSettings "1.4.0" (WriteOk 9) "version" s self in
  py_eq (persisted self "version") (VDict s) = false
  /\ r = (Raise AttributeError, self)
  /\ journal r.2 = [].
Proof. by vm_compute. Qed.

Lemma mutators_keep_keys_witness :
  let self := mkLocalConfig
    {[ "A" := VDict {[ "a" := VInt 1; "b" := VInt 2 ]}; "B" := VInt 3 ]}
    None [] in
  (exists sec',
     document (saveSectionSettings "1.4.0" WriteFails "A" {[ "a" := VInt 5 ]} self)
       !! "A" = Some (VDict sec')
     /\ sec' !! "b" = Some (VInt 2))
  /\ document (setSettings "1.4.0" WriteFails {[ "A" := VNull ]} self) !! "B"
     = Some (VInt 3)
  /\ is_Some (document (setSettings "1.4.0" WriteFails {[ "A" := VNull ]} self)
                !! "A").
Proof.
  intros self.
  destruct (mutators_keep_keys "1.4.0" WriteFails self) as (Hsave & Hset & Hkeys).
  split; [|split].
  - apply (Hsave "A" {[ "a" := VInt 5 ]} {[ "a" := VInt 1; "b" := VInt 2 ]}
             "b" (VInt 2)); [discriminate|reflexivity..].
  - apply (Hset {[ "A" := VNull ]} "B" (VInt 3)); [discriminate|reflexivity..].
  - apply (Hkeys {[ "A" := VNull ]} "A"). eexists. reflexivity.
Defined.

(** C10 as stated fails: [setSettings] with a document that has no
    [version] changes the value of the top-level key [version]. *)
Lemma setSettings_changes_version :
  let self := mkLocalConfig {[ "version" := VStr "1.3.0" ]} None [] in
  let doc : dict := {[ "A" := VDict ∅ ]} in
  _settings self !! "version" = Some (VStr "1.3.0")
  /\ doc !! "version" = None
  /\ document (setSettings "1.4.0" (WriteOk 9) doc self) !! "version"
     = Some (VStr "1.4.0").
Proof. by vm_compute. Qed.

(** ** The order of versions *)

(** C8.  With the dotted-numeric versions of the spec, 1.3.9 is below
    1.4.0 and 1.4.0 is below 1.10.0, which the lexical order of strings
    puts below 1.4.0; so a document of version 1.3.9 predates the cutoff
    of the migration and a document of version 1.10.0 does not. *)
Theorem version_order_dotted :
  let lt a b :=
    Dotted.version_lt (Dotted.parse_version a) (Dotted.parse_version b) in
  let old v :=
    predates_cutoff Dotted.parse_version Dotted.version_lt
      {[ "version" := VStr v ]} in
  lt "1.3.9" "1.4.0" = true
  /\ lt "1.4.0" "1.10.0" = true
  /\ lt "1.10.0" "1.4.0" = false
  /\ Dotted.string_ltb "1.10.0" "1.4.0" = true
  /\ old "1.3.9" = Ret true
  /\ old "1.10.0" = Ret false.
Proof. by vm_compute. Qed.

(** * Further properties *)

(** ** Reading again, reading back *)

(** X1.  Reading a file a second time gives the outcome and the object of
    the first time. *)
Theorem readConfig_again f self :
  _readConfig f (_readConfig f self).2 = _readConfig f self.
Proof.
  destruct f as [|mtime|mtime [config|x|s]].
  - by rewrite !_readConfig_unreadable.
  - by rewrite !_readConfig_garbled.
  - rewrite !_readConfig_object. simpl. by rewrite (assoc (∪)), (idemp (∪)).
  - reflexivity.
  - by rewrite !_readConfig_string.
Qed.

(** X2.  Reading back the file that [_writeConfig] has just written
    changes nothing: the document in memory is the document on the disk,
    and the timestamp is that of the file. *)
Theorem writeConfig_read_back ver mtime self :
  let written := _writeConfig ver (WriteOk mtime) self in
  journal written.2 = Saved (document written) mtime :: journal self
  /\ _readConfig (saved_file (document written) mtime) written.2
     = (Ret ∅, written.2).
Proof.
  intros written. subst written. rewrite _writeConfig_result. split; [done|].
  unfold saved_file. rewrite _readConfig_object. unfold document. simpl.
  by rewrite (idemp (∪)).
Qed.

(** ** The timer *)

(** X3.  After a write that the file system has accepted, a tick of the
    timer that finds the file no newer than that write reads nothing,
    changes nothing and emits nothing. *)
Theorem checkConfigChanged_after_write ver mtime seen f self :
  (seen <= mtime)%Z ->
  let written := (_writeConfig ver (WriteOk mtime) self).2 in
  _checkConfigChanged (Some seen) f written = (Ret tt, written, []).
Proof.
  intros Hseen written. subst written. rewrite _writeConfig_result.
  unfold _checkConfigChanged. simpl.
  by rewrite (proj2 (Z.ltb_ge mtime seen)).
Qed.

Lemma checkConfigChanged_after_write_witness :
  let self := mkLocalConfig {[ "A" := VInt 1 ]} None [] in
  let written := (_writeConfig "1.4.0" (WriteOk 9) self).2 in
  _checkConfigChanged (Some 9%Z) Unreadable written = (Ret tt, written, []).
Proof.
  intros self written.
  apply (checkConfigChanged_after_write "1.4.0" 9 9 Unreadable self). lia.
Defined.

(** X4.  A tick that finds the file newer than the recorded timestamp, and
    holding an object, merges the object into the document, records the
    time of the file and emits the signal once; the next tick on the same
    file does nothing. *)
Theorem checkConfigChanged_reloads last mtime config self :
  _last_config_changed self = Some last ->
  (last < mtime)%Z ->
  let f := Parsed mtime (JObject config) in
  let loaded :=
    mkLocalConfig (config ∪ _settings self) (Some mtime) (journal self) in
  _checkConfigChanged (Some mtime) f self
  = (Ret tt, loaded, [config_changed_signal])
  /\ _checkConfigChanged (Some mtime) f loaded = (Ret tt, loaded, []).
Proof.
  intros Hlast Hlt f loaded. unfold _checkConfigChanged. rewrite Hlast.
  rewrite (proj2 (Z.ltb_lt last mtime) Hlt). subst f.
  rewrite _readConfig_object. split; [done|]. simpl.
  by rewrite Z.ltb_irrefl.
Qed.

Lemma checkConfigChanged_reloads_witness :
  let self := mkLocalConfig {[ "A" := VInt 1 ]} (Some 3%Z) [] in
  let f := Parsed 5 (JObject {[ "B" := VInt 2 ]}) in
  let loaded :=
    mkLocalConfig ({[ "B" := VInt 2 ]} ∪ {[ "A" := VInt 1 ]}) (Some 5%Z) [] in
  _checkConfigChanged (Some 5%Z) f self
  = (Ret tt, loaded, [config_changed_signal])
  /\ _checkConfigChanged (Some 5%Z) f loaded = (Ret tt, loaded, []).
Proof.
  intros self f loaded.
  apply (checkConfigChanged_reloads 3 5 {[ "B" := VInt 2 ]} self);
    [reflexivity|lia].
Defined.

(** X5.  The signal is emitted although nothing was loaded when the newer
    file cannot be read.  A file that is not valid JSON is tried once, its
    time being recorded; a file that cannot be opened leaves the object as
    it was, so that every later tick tries and emits again. *)
Theorem checkConfigChanged_unread last mtime self :
  _last_config_changed self = Some last ->
  (last < mtime)%Z ->
  _checkConfigChanged (Some mtime) Unreadable self
  = (Ret tt, self, [config_changed_signal])
  /\ _checkConfigChanged (Some mtime) (Garbled mtime) self
     = (Ret tt, with_mtime self mtime, [config_changed_signal])
  /\ _checkConfigChanged (Some mtime) (Garbled mtime) (with_mtime self mtime)
     = (Ret tt, with_mtime self mtime, []).
Proof.
  intros Hlast Hlt. unfold _checkConfigChanged. rewrite Hlast.
  rewrite (proj2 (Z.ltb_lt last mtime) Hlt).
  rewrite _readConfig_unreadable, _readConfig_garbled. simpl.
  by rewrite Z.ltb_irrefl.
Qed.

Lemma checkConfigChanged_unread_witness :
  let self := mkLocalConfig {[ "A" := VInt 1 ]} (Some 3%Z) [] in
  _checkConfigChanged (Some 5%Z) Unreadable self
  = (Ret tt, self, [config_changed_signal])
  /\ _checkConfigChanged (Some 5%Z) (Garbled 5) self
     = (Ret tt, with_mtime self 5, [config_changed_signal])
  /\ _checkConfigChanged (Some 5%Z) (Garbled 5) (with_mtime self 5)
     = (Ret tt, with_mtime self 5, []).
Proof.
  intros self. apply (checkConfigChanged_unread 3 5 self); [reflexivity|lia].
Defined.

(** X6.  For every file of the model, the tick never runs [_writeConfig],
    emits the signal at most once, and emits nothing when it raises.
    Before it reads anything, it raises AttributeError when the timestamp
    was never recorded and OSError when [os.stat] fails, and it does
    nothing when the file is not newer than the timestamp; the object is
    then as it was. *)
Theorem checkConfigChanged_safe stat f self :
  let r := _checkConfigChanged stat f self in
  journal r.1.2 = journal self
  /\ length r.2 <= 1
  /\ (forall e, r.1.1 = Raise e -> r.2 = [])
  /\ (_last_config_changed self = None -> r = (Raise AttributeError, self, []))
  /\ (is_Some (_last_config_changed self) -> stat = None ->
        r = (Raise OSError, self, []))
  /\ (forall last mtime,
        _last_config_changed self = Some last -> stat = Some mtime ->
        (mtime <= last)%Z -> r = (Ret tt, self, [])).
Proof.
  intros r. subst r. unfold _checkConfigChanged.
  destruct (_last_config_changed self) as [last|] eqn:Hlast.
  2:{ simpl. repeat split; auto; done. }
  destruct stat as [mtime|].
  2:{ simpl. repeat split; auto; done. }
  destruct (last <? mtime)%Z eqn:Hlt.
  2:{ simpl. repeat split; auto; done. }
  assert (forall last' mtime' : Z, Some last = Some last' ->
            Some mtime = Some mtime' -> (mtime' <= last')%Z -> False) as Hnewer.
  { intros last' mtime' [= <-] [= <-] Hle. apply Z.ltb_lt in Hlt. lia. }
  destruct f as [|m|m [config|x|s]];
    rewrite ?_readConfig_unreadable, ?_readConfig_garbled,
      ?_readConfig_object, ?_readConfig_string; simpl;
    repeat split; auto; try done;
    intros; exfalso; eauto.
Qed.

Lemma checkConfigChanged_safe_witness :
  let self := mkLocalConfig {[ "A" := VInt 1 ]} (Some 3%Z) [] in
  let r := _checkConfigChanged (Some 5%Z) (Parsed 5 (JScalar SNull)) self in
  let quiet := _checkConfigChanged (Some 3%Z) (Parsed 3 (JScalar SNull)) self in
  r.1.1 = Raise TypeError /\ r.2 = [] /\ quiet = (Ret tt, self, []).
Proof.
  intros self r quiet. split; [reflexivity|]. split.
  - apply (proj1 (proj2 (proj2
      (checkConfigChanged_safe (Some 5%Z) (Parsed 5 (JScalar SNull)) self)))
      TypeError).
    reflexivity.
  - apply (proj2 (proj2 (proj2 (proj2 (proj2
      (checkConfigChanged_safe (Some 3%Z) (Parsed 3 (JScalar SNull)) self)))))
      3%Z 3%Z); [reflexivity|reflexivity|lia].
Defined.

(** ** Loading a section again *)

Lemma filled_level_absent dm rm :
  filled_level ∅ dm rm -> rm = dm.
Proof.
  intros H. apply map_eq. intros k. specialize (H k).
  rewrite lookup_empty in H. by destruct (dm !! k).
Qed.

Lemma shape_ok_self v : shape_ok v v = true.
Proof.
  induction v as [| | | | |d IH] using value_nested_ind; try done.
  apply shape_ok_dict. intros k dv lv Hdv _ Hlv.
  assert (lv = dv) as -> by congruence. by apply (IH k).
Qed.

Lemma _copySettings_again default :
  forall local r,
    is_dict default = true ->
    shape_ok local default = true ->
    _copySettings local default = Ret r ->
    shape_ok r default = true /\ _copySettings r default = Ret r.
Proof.
  induction default as [| | | | |dm IH] using value_nested_ind; try done.
  intros local r _ Hshape Hr.
  destruct local as [| | | | |lm]; try done.
  destruct (_copySettings_filled dm lm Hshape) as (rm & Hrm & Hlevel).
  rewrite Hrm in Hr. injection Hr as <-.
  pose proof (proj1 (shape_ok_dict _ _) Hshape) as Hinner.
  assert (forall k dv rv, dm !! k = Some dv -> is_dict dv = true ->
            rm !! k = Some rv ->
            shape_ok rv dv = true /\ _copySettings rv dv = Ret rv) as Hsub.
  { intros k dv rv Hdv Hdict Hrv. specialize (Hlevel k).
    rewrite Hdv in Hlevel. destruct (lm !! k) as [lv|] eqn:Hlv.
    - rewrite Hdict in Hlevel. destruct Hlevel as (rv' & Hcopy & Hrv' & _).
      assert (rv' = rv) as -> by congruence.
      eapply (IH k dv Hdv); eauto.
    - assert (rv = dv) as -> by congruence.
      rewrite (_copySettings_self dv Hdict). split; [|done].
      apply shape_ok_self. }
  assert (shape_ok (VDict rm) (VDict dm) = true) as Hshape'.
  { apply shape_ok_dict. intros k dv rv Hdv Hdict Hrv.
    by destruct (Hsub k dv rv). }
  split; [done|].
  destruct (_copySettings_filled dm rm Hshape') as (rm' & Hrm' & Hlevel').
  rewrite Hrm'. do 2 f_equal. apply map_eq. intros k.
  specialize (Hlevel' k). specialize (Hlevel k).
  destruct (dm !! k) as [dv|] eqn:Hdv; [|done].
  destruct (rm !! k) as [rv|] eqn:Hrv.
  - destruct (is_dict dv) eqn:Hdict; [|done].
    destruct Hlevel' as (rv' & Hcopy & -> & _).
    destruct (Hsub k dv rv Hdv Hdict Hrv) as [_ Hagain]. congruence.
  - destruct (lm !! k); [|congruence].
    destruct (is_dict dv); [|congruence].
    destruct Hlevel as (? & _ & ? & _). congruence.
Qed.

Lemma loadSectionSettings_run self section default_settings r :
  _copySettings (persisted self section) default_settings = Ret r ->
  loadSectionSettings section default_settings self
  = (Ret r, with_settings self (<[section := r]> (_settings self))).
Proof.
  intros Hr. unfold loadSectionSettings, mbind, M_bind, get_settings, lift.
  simpl. fold (persisted self section). by rewrite Hr.
Qed.

Lemma persisted_after self section r :
  persisted (with_settings self (<[section := r]> (_settings self))) section = r.
Proof. unfold persisted. simpl. by rewrite lookup_insert_eq. Qed.

(** X7.  Loading a section a second time with the same defaults returns
    what the first call returned and leaves the object as the first call
    left it. *)
Theorem loadSectionSettings_again self section dm :
  shape_ok (persisted self section) (VDict dm) = true ->
  let first := loadSectionSettings section (VDict dm) self in
  returns first.1
  /\ loadSectionSettings section (VDict dm) first.2 = first.
Proof.
  intros Hshape first. subst first.
  destruct (persisted_shape _ _ _ Hshape) as [sm Hsm].
  rewrite Hsm in Hshape.
  destruct (_copySettings_filled dm sm Hshape) as (rm & Hrm & _).
  rewrite <- Hsm in Hrm. rewrite (loadSectionSettings_run _ _ _ _ Hrm).
  split; [by eexists|]. simpl.
  rewrite Hsm in Hrm.
  destruct (_copySettings_again (VDict dm) (VDict sm) (VDict rm) eq_refl
              Hshape Hrm) as [_ Hagain].
  rewrite (loadSectionSettings_run _ _ _ (VDict rm)).
  - simpl. unfold with_settings. simpl. by rewrite insert_insert_eq.
  - by rewrite persisted_after.
Qed.

Lemma loadSectionSettings_again_witness :
  let self := mkLocalConfig
    {[ "A" := VDict {[ "x" := VInt 1; "k" := VDict {[ "b" := VInt 2 ]} ]} ]}
    None [] in
  let dm : dict :=
    {[ "y" := VInt 0; "x" := VInt 7; "k" := VDict {[ "a" := VInt 1 ]} ]} in
  let first := loadSectionSettings "A" (VDict dm) self in
  returns first.1
  /\ loadSectionSettings "A" (VDict dm) first.2 = first.
Proof.
  intros self dm first.
  apply (loadSectionSettings_again self "A" dm). reflexivity.
Defined.

(** X8.  A section the document does not have is loaded as the defaults
    themselves, whatever they hold, and stored as such. *)
Theorem loadSectionSettings_absent self section dm :
  _settings self !! section = None ->
  loadSectionSettings section (VDict dm) self
  = (Ret (VDict dm),
     with_settings self (<[section := VDict dm]> (_settings self))).
Proof.
  intros Habsent. apply loadSectionSettings_run.
  unfold persisted. rewrite Habsent. simpl.
  assert (shape_ok (VDict ∅) (VDict dm) = true) as Hshape.
  { apply shape_ok_dict. intros k dv lv _ _. by rewrite lookup_empty. }
  destruct (_copySettings_filled dm ∅ Hshape) as (rm & -> & Hlevel).
  by rewrite (filled_level_absent dm rm Hlevel).
Qed.

Lemma loadSectionSettings_absent_witness :
  let self := mkLocalConfig {[ "B" := VInt 1 ]} None [] in
  let dm : dict := {[ "k" := VDict {[ "a" := VInt 1 ]} ]} in
  loadSectionSettings "A" (VDict dm) self
  = (Ret (VDict dm), with_settings self (<["A" := VDict dm]> (_settings self))).
Proof.
  intros self dm. apply (loadSectionSettings_absent self "A" dm). reflexivity.
Defined.

(** ** Saving and reading back *)

Lemma py_eq_dict_lookup pm s :
  py_eq (VDict pm) (VDict s) = true ->
  forall k v, s !! k = Some v ->
    exists v', pm !! k = Some v' /\ py_eq v' v = true.
Proof.
  simpl. rewrite andb_true_iff, Nat.eqb_eq, map_forallb_spec.
  intros [Hsize Hall] k v Hk.
  assert (dom pm = dom s) as Hdom.
  { apply set_subseteq_size_eq.
    - intros i. rewrite !elem_of_dom. intros [x Hx].
      specialize (Hall i x Hx). destruct (s !! i); [by eexists|done].
    - rewrite !size_dom. lia. }
  assert (is_Some (pm !! k)) as [v' Hv'].
  { apply elem_of_dom. rewrite Hdom. apply elem_of_dom. by eexists. }
  exists v'. split; [done|]. specialize (Hall k v' Hv'). by rewrite Hk in Hall.
Qed.

Lemma _copySettings_no_defaults local :
  _copySettings local (VDict ∅) = Ret local.
Proof. rewrite _copySettings_dict. apply map_fold_empty. Qed.

(** X9.  What is saved can be read back: after [saveSectionSettings] on a
    section other than [version], loading the section without defaults
    changes nothing and returns a mapping that has every key of the saved
    mapping, with a value equal to the saved one; the value is the saved
    one itself whenever the save has written. *)
Theorem saveSectionSettings_then_load ver io self section s :
  absent_or_dict (_settings self !! section) = true ->
  section <> "version" ->
  let saved := (saveSectionSettings ver io section s self).2 in
  exists r,
    loadSectionSettings section (VDict ∅) saved = (Ret (VDict r), saved)
    /\ forall k v, s !! k = Some v ->
         exists v', r !! k = Some v' /\ py_eq v' v = true
           /\ (py_eq (persisted self section) (VDict s) = false -> v' = v).
Proof.
  intros Hshape Hsection saved.
  assert (exists pm, persisted self section = VDict pm) as [pm Hp].
  { unfold persisted.
    destruct (_settings self !! section) as [[]|]; try done; simpl; eauto. }
  subst saved. rewrite (saveSectionSettings_result ver io _ _ _ pm Hp), Hp.
  destruct (py_eq (VDict pm) (VDict s)) eqn:Heq.
  - exists pm. split.
    + rewrite (loadSectionSettings_run _ _ _ (VDict pm)).
      * simpl. unfold with_settings. simpl. by rewrite insert_insert_eq.
      * simpl. rewrite persisted_after. apply _copySettings_no_defaults.
    + intros k v Hk.
      destruct (py_eq_dict_lookup pm s Heq k v Hk) as (v' & Hv' & Hvv).
      exists v'. by repeat split.
  - rewrite _writeConfig_result. exists (s ∪ pm). split.
    + rewrite (loadSectionSettings_run _ _ _ (VDict (s ∪ pm))).
      * simpl. unfold with_settings. simpl. rewrite insert_id; [done|].
        by rewrite lookup_insert_ne, lookup_insert_eq.
      * unfold persisted. simpl.
        rewrite lookup_insert_ne, lookup_insert_eq by done. simpl.
        apply _copySettings_no_defaults.
    + intros k v Hk. exists v.
      split; [by rewrite (lookup_union_Some_l _ _ _ _ Hk)|].
      split; [apply py_eq_refl|done].
Qed.

Lemma saveSectionSettings_then_load_witness :
  let self := mkLocalConfig {[ "A" := VDict {[ "a" := VInt 1 ]} ]} None [] in
  let s : dict := {[ "b" := VInt 2 ]} in
  let saved := (saveSectionSettings "1.4.0" WriteFails "A" s self).2 in
  exists r,
    loadSectionSettings "A" (VDict ∅) saved = (Ret (VDict r), saved)
    /\ forall k v, s !! k = Some v ->
         exists v', r !! k = Some v' /\ py_eq v' v = true
           /\ (py_eq (persisted self "A") (VDict s) = false -> v' = v).
Proof.
  intros self s saved.
  apply (saveSectionSettings_then_load "1.4.0" WriteFails self "A" s);
    [reflexivity|discriminate].
Defined.

(** X10.  After [setSettings], [settings] returns a document that has
    every key of the given document other than [version], with a value
    equal to the given one, and with the given value itself whenever the
    document has been written. *)
Theorem setSettings_then_settings ver io self doc :
  let after := (setSettings ver io doc self).2 in
  exists d,
    settings after = (Ret d, after)
    /\ forall k v, k <> "version" -> doc !! k = Some v ->
         exists v', d !! k = Some v' /\ py_eq v' v = true
           /\ (py_eq (VDict (_settings self)) (VDict doc) = false -> v' = v).
Proof.
  intros after. subst after. exists (document (setSettings ver io doc self)).
  split; [done|]. intros k v Hk Hv. unfold document.
  rewrite setSettings_result.
  destruct (py_eq (VDict (_settings self)) (VDict doc)) eqn:Heq.
  - destruct (py_eq_dict_lookup _ _ Heq k v Hv) as (v' & Hv' & Hvv).
    exists v'. by repeat split.
  - rewrite _writeConfig_result. simpl. exists v.
    rewrite lookup_insert_ne by done.
    split; [by rewrite (lookup_union_Some_l _ _ _ _ Hv)|].
    split; [apply py_eq_refl|done].
Qed.

Lemma setSettings_then_settings_witness :
  let self := mkLocalConfig {[ "A" := VInt 1 ]} None [] in
  let doc : dict := {[ "A" := VInt 2; "B" := VNull ]} in
  let after := (setSettings "1.4.0" WriteFails doc self).2 in
  exists d,
    settings after = (Ret d, after)
    /\ exists v', d !! "A" = Some v' /\ py_eq v' (VInt 2) = true.
Proof.
  intros self doc after.
  destruct (setSettings_then_settings "1.4.0" WriteFails self doc)
    as (d & Hd & Hkeys).
  exists d. split; [exact Hd|].
  destruct (Hkeys "A" (VInt 2)) as (v' & Hv' & Hvv & _);
    [discriminate|reflexivity|].
  exists v'. by split.
Defined.

(** X11.  Saving a mapping that has every key of the section, into a
    section other than [version], makes the same save free afterwards: a
    second call writes nothing and changes nothing. *)
Theorem saveSectionSettings_again ver io io' self section s :
  absent_or_dict (_settings self !! section) = true ->
  section <> "version" ->
  (forall k v, at_path [k] (persisted self section) = Some v ->
     is_Some (s !! k)) ->
  let saved := (saveSectionSettings ver io section s self).2 in
  saveSectionSettings ver io' section s saved = (Ret tt, saved).
Proof.
  intros Hshape Hsection Hcover saved.
  assert (exists pm, persisted self section = VDict pm) as [pm Hp].
  { unfold persisted.
    destruct (_settings self !! section) as [[]|]; try done; simpl; eauto. }
  rewrite Hp in Hcover. subst saved.
  rewrite (saveSectionSettings_result ver io _ _ _ pm Hp).
  destruct (py_eq (VDict pm) (VDict s)) eqn:Heq.
  - simpl. rewrite (saveSectionSettings_result ver io' _ _ _ pm).
    2:{ apply persisted_after. }
    rewrite Heq. unfold with_settings. simpl. by rewrite insert_insert_eq.
  - rewrite _writeConfig_result. simpl.
    assert (s ∪ pm = s) as ->.
    { apply map_eq. intros k. rewrite lookup_union.
      destruct (s !! k) as [v|] eqn:Hs; [by destruct (pm !! k)|].
      destruct (pm !! k) as [v|] eqn:Hpm; [|done].
      destruct (Hcover k v) as [? ?]; [by simpl; rewrite Hpm|congruence]. }
    rewrite (saveSectionSettings_result ver io' _ _ _ s).
    2:{ unfold persisted. simpl.
        by rewrite lookup_insert_ne, lookup_insert_eq. }
    rewrite py_eq_refl. unfold with_settings. simpl.
    rewrite insert_id; [done|].
    by rewrite lookup_insert_ne, lookup_insert_eq.
Qed.

Lemma saveSectionSettings_again_witness :
  let self := mkLocalConfig {[ "A" := VDict {[ "a" := VInt 1 ]} ]} None [] in
  let s : dict := {[ "a" := VInt 5; "b" := VInt 2 ]} in
  let saved := (saveSectionSettings "1.4.0" (WriteOk 3) "A" s self).2 in
  saveSectionSettings "1.4.0" (WriteOk 4) "A" s saved = (Ret tt, saved).
Proof.
  intros self s saved.
  apply (saveSectionSettings_again "1.4.0" (WriteOk 3) (WriteOk 4) self "A" s);
    [reflexivity|discriminate|].
  intros k v Hk. destruct (decide (k = "a")) as [->|Hne]; [by eexists|].
  exfalso. change (persisted self "A") with (VDict {[ "a" := VInt 1 ]}) in Hk.
  simpl in Hk. by rewrite lookup_singleton_ne in Hk.
Defined.

(** ** More on the migration *)

Lemma servers_block_returns sv ls rs sv' :
  servers_block sv ls rs = (Ret tt, sv') ->
  absent_or_dict sv = true ->
  let prior := match sv with Some (VDict sd) => sd | _ => ∅ end in
  exists sd,
    sv' = Some (VDict sd)
    /\ (forall r, rs = Some r -> sd !! "remote_servers" = Some r)
    /\ (rs = None -> sd !! "remote_servers" = prior !! "remote_servers")
    /\ (ls = None -> sd !! "local_server" = prior !! "local_server")
    /\ (forall ld p, ls = Some (VDict ld) -> ld !! "path" = Some p ->
          py_eq p (VStr old_server_path) = false ->
          sd !! "local_server" = Some (VDict ld))
    /\ (forall k, k <> "local_server" -> k <> "remote_servers" ->
          sd !! k = prior !! k).
Proof.
  intros Hrun Hsv prior. unfold servers_block in Hrun.
  assert (ls = None \/ exists ld p, ls = Some (VDict ld)
            /\ ld !! "path" = Some p) as Hls.
  { destruct ls as [l|]; [|by left].
    destruct l as [| | | | |ld];
      try (destruct sv as [[| | | | |sd]|]; by simplify_eq/=).
    destruct (ld !! "path") as [p|] eqn:Hp.
    - right. by exists ld, p.
    - destruct sv as [[| | | | |sd]|]; simpl in Hrun; try done;
        by rewrite Hp in Hrun. }
  destruct Hls as [->|(ld & p & -> & Hp)].
  - destruct sv as [[| | | | |sd]|], rs as [r|]; simplify_eq/=;
      eexists; (split; [done|]);
      repeat split; try done; intros; simplify_eq;
      rewrite ?lookup_insert_ne by done; rewrite ?lookup_insert_eq;
      first [done|congruence].
  - destruct sv as [[| | | | |sd]|]; try done; simpl in Hrun;
      rewrite Hp in Hrun; simpl in Hrun;
      destruct (py_eq p (VStr old_server_path)) eqn:Heq; simpl in Hrun;
      destruct rs as [r|]; simplify_eq/=;
      eexists; (split; [done|]);
      repeat split; try done; intros; simplify_eq;
      rewrite ?lookup_insert_ne by done; rewrite ?lookup_insert_eq;
      first [done|congruence].
Qed.

Lemma main_window_block_returns gui mw mw' g :
  main_window_block gui mw = (Ret tt, mw') ->
  gui = Some (VDict g) ->
  mw' = Some (VDict (<["hide_getting_started_dialog" :=
                        default (VBool false)
                          (g !! "hide_getting_started_dialog")]>
                      (match mw with Some (VDict w) => w | _ => ∅ end))).
Proof.
  intros Hrun ->. unfold main_window_block in Hrun.
  destruct mw as [[| | | | |w]|]; by simplify_eq/=.
Qed.

Section MoreMigration.

Context {Version : Type}.
Variable parse_version : string -> Version.
Variable version_lt : Version -> Version -> bool.

Local Abbreviation migrate := (_migrateOldConfig parse_version version_lt).
Local Abbreviation old := (predates_cutoff parse_version version_lt).
Local Abbreviation blocks := (migrated parse_version version_lt).

Lemma migrated_frame d k :
  k <> "Servers" -> k <> "MainWindow" -> (blocks d).2 !! k = d !! k.
Proof.
  intros Hs Hm. unfold migrated.
  destruct (old d) as [[|]|e]; simpl; try done.
  destruct (servers_block _ _ _) as [[[]|e] sv'].
  - destruct (main_window_block _ _) as [o2 mw']. simpl.
    by rewrite !lookup_with_entry_ne.
  - simpl. by rewrite lookup_with_entry_ne.
Qed.

Lemma migrated_keeps d k :
  is_Some (d !! k) -> is_Some ((blocks d).2 !! k).
Proof.
  intros Hk.
  assert (forall k' entry (m : dict),
            is_Some (m !! k) -> is_Some (with_entry k' entry m !! k)) as Hentry.
  { intros k' [v|] m Hm; simpl; [|done].
    destruct (decide (k' = k)) as [->|Hne].
    - by rewrite lookup_insert_eq.
    - by rewrite lookup_insert_ne. }
  unfold migrated.
  destruct (old d) as [[|]|e]; simpl; try done.
  destruct (servers_block _ _ _) as [[[]|e] sv'].
  - destruct (main_window_block _ _) as [o2 mw']. simpl. auto.
  - simpl. auto.
Qed.

(** X12.  Whatever the document and however the migration ends, it changes
    nothing of the object but the entries [Servers] and [MainWindow] of the
    document: the sections it copies from stay, the version is not
    stamped, and no key is removed. *)
Theorem migrateOldConfig_frame self :
  (migrate self).2 = with_settings self (document (migrate self))
  /\ (forall k, k <> "Servers" -> k <> "MainWindow" ->
        document (migrate self) !! k = _settings self !! k)
  /\ (forall k, is_Some (_settings self !! k) ->
        is_Some (document (migrate self) !! k)).
Proof.
  rewrite _migrateOldConfig_migrated. unfold document. simpl.
  split; [done|]. split.
  - intros k. apply migrated_frame.
  - intros k. apply migrated_keeps.
Qed.

Lemma migrated_returns d :
  old d = Ret true ->
  (blocks d).1 = Ret tt ->
  exists sv' mw',
    servers_block (d !! "Servers") (d !! "LocalServer") (d !! "RemoteServers")
    = (Ret tt, sv')
    /\ main_window_block (d !! "GUI") (d !! "MainWindow") = (Ret tt, mw')
    /\ (blocks d).2 = with_entry "MainWindow" mw' (with_entry "Servers" sv' d).
Proof.
  intros Hold. unfold migrated. rewrite Hold.
  destruct (servers_block _ _ _) as [[[]|e] sv']; [|done].
  destruct (main_window_block _ _) as [[[]|e] mw']; [|done].
  intros _. by exists sv', mw'.
Qed.

(** X13.  When the migration of an old document succeeds, [Servers] is a
    mapping that holds a copy of [RemoteServers] under [remote_servers],
    a copy of [LocalServer] under [local_server], unchanged when its path
    is not the old path of the server, and every other entry that
    [Servers] had before. *)
Theorem migrateOldConfig_servers self :
  old (_settings self) = Ret true ->
  (migrate self).1 = Ret tt ->
  absent_or_dict (_settings self !! "Servers") = true ->
  let prior :=
    match _settings self !! "Servers" with Some (VDict sd) => sd | _ => ∅ end in
  exists sd,
    document (migrate self) !! "Servers" = Some (VDict sd)
    /\ (forall r, _settings self !! "RemoteServers" = Some r ->
          sd !! "remote_servers" = Some r)
    /\ (forall ld p,
          _settings self !! "LocalServer" = Some (VDict ld) ->
          ld !! "path" = Some p ->
          py_eq p (VStr old_server_path) = false ->
          sd !! "local_server" = Some (VDict ld))
    /\ (forall k,
          (k = "local_server" -> _settings self !! "LocalServer" = None) ->
          (k = "remote_servers" -> _settings self !! "RemoteServers" = None) ->
          sd !! k = prior !! k).
Proof.
  intros Hold Hret Hshape prior.
  rewrite _migrateOldConfig_migrated in Hret |- *. simpl in Hret.
  unfold document. simpl.
  destruct (migrated_returns _ Hold Hret) as (sv' & mw' & Hsv & _ & ->).
  destruct (servers_block_returns _ _ _ _ Hsv Hshape)
    as (sd & -> & Hrs & Hnors & Hnols & Hls & Hother).
  exists sd. rewrite lookup_with_entry_ne by done. simpl.
  rewrite lookup_insert_eq. split; [done|]. split; [done|]. split; [done|].
  intros k Hl Hr.
  destruct (decide (k = "local_server")) as [->|Hnl]; [by apply Hnols, Hl|].
  destruct (decide (k = "remote_servers")) as [->|Hnr]; [by apply Hnors, Hr|].
  by apply Hother.
Qed.

(** X14.  When the migration of an old document with a [GUI] mapping
    succeeds, [MainWindow] is the mapping it was, or an empty one, with
    [hide_getting_started_dialog] set to the flag of [GUI], or to false
    when [GUI] has none; [GUI] itself stays. *)
Theorem migrateOldConfig_main_window self g :
  old (_settings self) = Ret true ->
  (migrate self).1 = Ret tt ->
  _settings self !! "GUI" = Some (VDict g) ->
  let prior :=
    match _settings self !! "MainWindow" with Some (VDict w) => w | _ => ∅ end in
  document (migrate self) !! "MainWindow"
  = Some (VDict (<["hide_getting_started_dialog" :=
                    default (VBool false) (g !! "hide_getting_started_dialog")]>
                  prior))
  /\ document (migrate self) !! "GUI" = Some (VDict g).
Proof.
  intros Hold Hret Hgui prior.
  rewrite _migrateOldConfig_migrated in Hret |- *. simpl in Hret.
  unfold document. simpl.
  destruct (migrated_returns _ Hold Hret) as (sv' & mw' & _ & Hmw & ->).
  rewrite (main_window_block_returns _ _ _ g Hmw Hgui). simpl.
  rewrite lookup_insert_eq, lookup_insert_ne, lookup_with_entry_ne by done.
  done.
Qed.

(** X15.  A [LocalServer] mapping without [path] makes the migration of an
    old document raise KeyError.  The copy has then already been put into
    the [Servers] mapping of the document, when the document had one;
    nothing else has changed. *)
Theorem migrateOldConfig_missing_path self ld :
  old (_settings self) = Ret true ->
  _settings self !! "LocalServer" = Some (VDict ld) ->
  ld !! "path" = None ->
  absent_or_dict (_settings self !! "Servers") = true ->
  migrate self
  = (Raise KeyError,
     with_settings self
       match _settings self !! "Servers" with
       | Some (VDict sd) =>
           <["Servers" := VDict (<["local_server" := VDict ld]> sd)]>
             (_settings self)
       | _ => _settings self
       end).
Proof.
  intros Hold Hls Hpath Hshape.
  rewrite _migrateOldConfig_migrated. unfold migrated.
  rewrite Hold, Hls. unfold servers_block.
  destruct (_settings self !! "Servers") as [[| | | | |sd]|]; try done;
    simpl; by rewrite Hpath.
Qed.

End MoreMigration.

Lemma migrateOldConfig_frame_witness :
  let self := mkLocalConfig
    {[ "LocalServer" := VDict {[ "path" := VStr old_server_path ]};
       "GUI" := VDict ∅ ]} None [] in
  document (dotted_migrate self) !! "LocalServer"
  = Some (VDict {[ "path" := VStr old_server_path ]})
  /\ is_Some (document (dotted_migrate self) !! "GUI").
Proof.
  intros self.
  destruct (migrateOldConfig_frame Dotted.parse_version Dotted.version_lt self)
    as (_ & Hframe & Hkeeps).
  split.
  - apply (Hframe "LocalServer"); discriminate.
  - apply (Hkeeps "GUI"). by eexists.
Defined.

Lemma migrateOldConfig_servers_witness :
  let self := mkLocalConfig
    {[ "version" := VStr "1.3.9";
       "Servers" := VDict {[ "vm" := VInt 1 ]};
       "LocalServer" := VDict {[ "path" := VStr "/usr/bin/gns3server" ]};
       "RemoteServers" := VList [VStr "host"] ]} None [] in
  exists sd,
    document (dotted_migrate self) !! "Servers" = Some (VDict sd)
    /\ sd !! "remote_servers" = Some (VList [VStr "host"])
    /\ sd !! "local_server"
       = Some (VDict {[ "path" := VStr "/usr/bin/gns3server" ]})
    /\ sd !! "vm" = Some (VInt 1).
Proof.
  intros self.
  destruct (migrateOldConfig_servers Dotted.parse_version Dotted.version_lt
              self eq_refl eq_refl eq_refl) as (sd & Hsd & Hrs & Hls & Hother).
  exists sd. split; [exact Hsd|]. split; [by apply Hrs|]. split.
  - by apply (Hls _ (VStr "/usr/bin/gns3server")).
  - by rewrite (Hother "vm").
Defined.

Lemma migrateOldConfig_main_window_witness :
  let self := mkLocalConfig
    {[ "GUI" := VDict {[ "hide_getting_started_dialog" := VBool true ]};
       "MainWindow" := VDict {[ "geometry" := VStr "g" ]} ]} None [] in
  document (dotted_migrate self) !! "MainWindow"
  = Some (VDict (<["hide_getting_started_dialog" := VBool true]>
                  {[ "geometry" := VStr "g" ]}))
  /\ document (dotted_migrate self) !! "GUI"
     = Some (VDict {[ "hide_getting_started_dialog" := VBool true ]}).
Proof.
  intros self.
  exact (migrateOldConfig_main_window Dotted.parse_version Dotted.version_lt
           self {[ "hide_getting_started_dialog" := VBool true ]}
           eq_refl eq_refl eq_refl).
Defined.

Lemma migrateOldConfig_missing_path_witness :
  let self := mkLocalConfig
    {[ "Servers" := VDict ∅; "LocalServer" := VDict {[ "host" := VStr "h" ]} ]}
    None [] in
  dotted_migrate self
  = (Raise KeyError,
     with_settings self
       (<["Servers" :=
            VDict (<["local_server" := VDict {[ "host" := VStr "h" ]}]> ∅)]>
          (_settings self))).
Proof.
  intros self.
  exact (migrateOldConfig_missing_path Dotted.parse_version Dotted.version_lt
           self {[ "host" := VStr "h" ]} eq_refl eq_refl eq_refl eq_refl).
Defined.

(** ** Start-up *)

Lemma _readConfig_journal f self :
  journal (_readConfig f self).2 = journal self.
Proof.
  destruct f as [|mtime|mtime [config|x|s]];
    rewrite ?_readConfig_unreadable, ?_readConfig_garbled,
      ?_readConfig_object, ?_readConfig_string; done.
Qed.

Lemma _readConfig_returns_empty f self d :
  (_readConfig f self).1 = Ret d -> d = ∅.
Proof.
  destruct f as [|mtime|mtime [config|x|s]];
    rewrite ?_readConfig_unreadable, ?_readConfig_garbled,
      ?_readConfig_object, ?_readConfig_string; simpl; congruence.
Qed.

Section StartupFacts.

Variable __version__ : string.
Context {Version : Type}.
Variable parse_version : string -> Version.
Variable version_lt : Version -> Version -> bool.

Local Abbreviation init := (__init__ __version__ parse_version version_lt).
Local Abbreviation after_reads := (after_reads __version__).
Local Abbreviation migrate := (_migrateOldConfig parse_version version_lt).
Local Abbreviation old := (predates_cutoff parse_version version_lt).
Local Abbreviation blocks := (migrated parse_version version_lt).

Lemma init_steps env :
  init env
  = match after_reads env with
    | (Ret _, self) =>
        match migrate self with
        | (Ret _, self') => _writeConfig __version__ (final_write env) self'
        | (Raise e, self') => (Raise e, self')
        end
    | (Raise e, self) => (Raise e, self)
    end.
Proof.
  unfold __init__, after_reads.
  unfold mbind at 1 2 3 4, M_bind at 1 2 3 4.
  destruct (system_wide env) as [f|].
  - unfold mbind at 1, M_bind at 1.
    destruct (_readConfig f _) as [[d0|e] s0]; [|done]. simpl.
    destruct (_readConfig (config_file __version__ env) s0) as [[d|e] s1] eqn:Hr;
      [|done].
    assert (d = ∅) as -> by (eapply _readConfig_returns_empty; by rewrite Hr).
    unfold mbind, M_bind, get_settings, put_settings. simpl.
    rewrite (left_id ∅ (∪)), with_settings_same.
    by destruct (migrate s1) as [[[]|e] s2].
  - simpl.
    destruct (_readConfig (config_file __version__ env) _) as [[d|e] s1] eqn:Hr;
      [|done].
    assert (d = ∅) as -> by (eapply _readConfig_returns_empty; by rewrite Hr).
    unfold mbind, M_bind, get_settings, put_settings. simpl.
    rewrite (left_id ∅ (∪)), with_settings_same.
    by destruct (migrate s1) as [[[]|e] s2].
Qed.

Lemma migrate_state self :
  migrate self = ((blocks (_settings self)).1,
                  with_settings self (blocks (_settings self)).2).
Proof. apply _migrateOldConfig_migrated. Qed.

Lemma after_reads_journal env : journal (after_reads env).2 = [].
Proof.
  unfold after_reads.
  destruct (system_wide env) as [f|].
  - pose proof (_readConfig_journal f (mkLocalConfig ∅ None [])) as H0.
    destruct (_readConfig f _) as [[d0|e] s0]; [|done]. simpl in H0.
    pose proof (_readConfig_journal (config_file __version__ env) s0) as H1.
    destruct (_readConfig (config_file __version__ env) s0) as [[d|e] s1];
      simpl in *; congruence.
  - pose proof (_readConfig_journal (config_file __version__ env)
                  (mkLocalConfig ∅ None [])) as H1.
    destruct (_readConfig (config_file __version__ env) _) as [[d|e] s1];
      simpl in *; congruence.
Qed.

Lemma init_journal env :
  match (init env).1 with
  | Ret _ =>
      journal (init env).2
      = [write_event (final_write env) (document (init env))]
      /\ document (init env) !! "version" = Some (VStr __version__)
  | Raise _ => journal (init env).2 = []
  end.
Proof.
  rewrite init_steps. pose proof (after_reads_journal env) as Hj.
  destruct (after_reads env) as [[[]|e] s1]; [|done]. simpl in Hj.
  rewrite migrate_state.
  destruct (blocks (_settings s1)) as [[[]|e] d2]; simpl; [|done].
  rewrite _writeConfig_result. unfold document. simpl.
  by rewrite Hj, lookup_insert_eq.
Qed.



Lemma after_reads_object env mu U :
  system_wide env = None ->
  config_file __version__ env = Parsed mu (JObject U) ->
  after_reads env = (Ret tt, mkLocalConfig U (Some mu) []).
Proof.
  intros Hs Hu. unfold after_reads. rewrite Hs, Hu.
  rewrite _readConfig_object. simpl. by rewrite (right_id ∅ (∪)).
Qed.


Lemma init_current_document env mtime doc :
  system_wide env = None ->
  config_file __version__ env = Parsed mtime (JObject doc) ->
  doc !! "version" = Some (VStr __version__) ->
  version_lt (parse_version __version__) (parse_version "1.4.0") = false ->
  init env
  = (Ret tt,
     mkLocalConfig doc
       (match final_write env with
        | WriteOk written => Some written
        | WriteFails => Some mtime
        end)
       [write_event (final_write env) doc]).
Proof.
  intros Hs Hu Hver Hlt. rewrite init_steps.
  rewrite (after_reads_object env mtime doc Hs Hu), migrate_state.
  unfold migrated, predates_cutoff. simpl. rewrite Hver, Hlt. simpl.
  rewrite _writeConfig_result. simpl. by rewrite insert_id.
Qed.

(** X18.  A document of the version of the application, when that version
    is not below 1.4.0 and there is no system wide file, is loaded as it
    is and written back as it is. *)
Theorem init_current env mtime doc :
  system_wide env = None ->
  config_file __version__ env = Parsed mtime (JObject doc) ->
  doc !! "version" = Some (VStr __version__) ->
  version_lt (parse_version __version__) (parse_version "1.4.0") = false ->
  init env
  = (Ret tt,
     mkLocalConfig doc
       (match final_write env with
        | WriteOk written => Some written
        | WriteFails => Some mtime
        end)
       [write_event (final_write env) doc]).
Proof. apply init_current_document. Qed.

Lemma migrated_plain d :
  d !! "Servers" = None -> d !! "LocalServer" = None ->
  d !! "RemoteServers" = None -> d !! "GUI" = None ->
  blocks d
  = match old d with
    | Ret true => (Ret tt, <["Servers" := VDict ∅]> d)
    | Ret false => (Ret tt, d)
    | Raise e => (Raise e, d)
    end.
Proof.
  intros Hs Hl Hr Hg. unfold migrated. rewrite Hs, Hl, Hr, Hg.
  destruct (old d) as [[|]|e]; simpl; try done.
  destruct (d !! "MainWindow") as [w|] eqn:Hw; simpl; [|done].
  by rewrite insert_id by by rewrite lookup_insert_ne.
Qed.

(** X19.  On a machine without configuration files, [__init__] creates the
    file of the user, reads it and ends with the initial document, to
    which the migration adds an empty [Servers] when the version of the
    application is below 1.4.0.  When the file cannot be created the
    document has no [type]. *)
Theorem init_fresh env :
  system_wide env = None -> in_cwd env = None -> of_user env = None ->
  let migrated_doc (d : dict) :=
    if version_lt (parse_version __version__) (parse_version "1.4.0")
    then <["Servers" := VDict ∅]> d else d in
  (forall mtime, creation env = Created mtime ->
     (init env).1 = Ret tt
     /\ document (init env)
        = migrated_doc (initial_document __version__))
  /\ (creation env = NotCreated ->
      (init env).1 = Ret tt
      /\ document (init env)
         = {[ "version" := VStr __version__; "Servers" := VDict ∅ ]}).
Proof.
  intros Hs Hc Hu migrated_doc. split.
  - intros mtime Hcreated. rewrite init_steps.
    rewrite (after_reads_object env mtime (initial_document __version__) Hs).
    2:{ unfold config_file. by rewrite Hc, Hu, Hcreated. }
    rewrite migrate_state, migrated_plain by reflexivity.
    unfold predates_cutoff.
    assert (initial_document __version__ !! "version"
            = Some (VStr __version__)) as Hver by reflexivity.
    simpl. rewrite Hver. subst migrated_doc. simpl.
    destruct (version_lt _ _); simpl;
      rewrite _writeConfig_result; unfold document; simpl;
      (split; [done|]); rewrite insert_id; done.
  - intros Hnot. rewrite init_steps.
    assert (after_reads env = (Ret tt, mkLocalConfig ∅ None [])) as ->.
    { unfold after_reads, config_file. rewrite Hs, Hc, Hu, Hnot.
      by rewrite _readConfig_unreadable. }
    rewrite migrate_state, migrated_plain by reflexivity.
    unfold predates_cutoff. simpl.
    rewrite _writeConfig_result. unfold document. simpl. split; [done|].
    by rewrite insert_empty.
Qed.

(** X20.  Starting again from the file a first start-up has written gives
    the document of the first start-up, when the version of the
    application is not below 1.4.0. *)
Theorem init_restart env env' mtime :
  (init env).1 = Ret tt ->
  final_write env = WriteOk mtime ->
  system_wide env' = None ->
  config_file __version__ env' = saved_file (document (init env)) mtime ->
  version_lt (parse_version __version__) (parse_version "1.4.0") = false ->
  (init env').1 = Ret tt
  /\ document (init env') = document (init env)
  /\ journal (init env').2
     = [write_event (final_write env') (document (init env))].
Proof.
  intros Hret Hio Hs Hfile Hlt.
  pose proof (init_journal env) as Hj. rewrite Hret in Hj.
  destruct Hj as [_ Hver].
  rewrite (init_current_document env' mtime (document (init env)) Hs Hfile Hver Hlt).
  done.
Qed.

End StartupFacts.


Lemma init_current_witness :
  let doc : dict := {[ "version" := VStr "1.4.0"; "A" := VInt 5 ]} in
  let env := mkStartup None None (Some (Parsed 2 (JObject doc)))
               NotCreated (WriteOk 3) in
  __init__ "1.4.0" Dotted.parse_version Dotted.version_lt env
  = (Ret tt, mkLocalConfig doc (Some 3%Z) [Saved doc 3]).
Proof.
  intros doc env.
  exact (init_current "1.4.0" Dotted.parse_version Dotted.version_lt env 2 doc
           eq_refl eq_refl eq_refl eq_refl).
Defined.

Lemma init_fresh_witness :
  let env := mkStartup None None None (Created 1) (WriteOk 3) in
  let init := __init__ "1.4.0" Dotted.parse_version Dotted.version_lt in
  (init env).1 = Ret tt
  /\ document (init env)
     = {[ "version" := VStr "1.4.0"; "type" := VStr "settings" ]}.
Proof.
  intros env init.
  exact (proj1 (init_fresh "1.4.0" Dotted.parse_version Dotted.version_lt env
                  eq_refl eq_refl eq_refl) 1%Z eq_refl).
Defined.

Lemma init_restart_witness :
  let init := __init__ "1.4.0" Dotted.parse_version Dotted.version_lt in
  let env := mkStartup None None
    (Some (Parsed 2 (JObject
       {[ "LocalServer" := VDict {[ "path" := VStr old_server_path ]} ]})))
    NotCreated (WriteOk 3) in
  let env' := mkStartup None None
    (Some (saved_file (document (init env)) 3)) NotCreated (WriteOk 9) in
  (init env').1 = Ret tt
  /\ document (init env') = document (init env)
  /\ journal (init env').2 = [Saved (document (init env)) 9].
Proof.
  intros init env env'.
  exact (init_restart "1.4.0" Dotted.parse_version Dotted.version_lt env env' 3
           eq_refl eq_refl eq_refl eq_refl eq_refl).
Defined.
